(** * nutanix_image: reconciliation of one image against Prism Central

    A shallow embedding of [plugins/modules/nutanix_image.py].  The module's
    functions are translated one by one, in the order of the source, into a
    small state-and-exit monad: the state is the remote side (reached only
    through the API client) together with the trace of client calls made so
    far; a computation either returns, leaves through [module.exit_json],
    leaves through [module.fail_json], or dies on an uncaught Python
    exception. *)

From Stdlib Require Import String Ascii List Bool Arith Lia.
From Stdlib Require Import DecimalString.
Import ListNotations.
Open Scope string_scope.
Open Scope list_scope.

Set Implicit Arguments.

(** ** Python values *)

(** A [str] is the string of its code points, taken below 256.  A
    [str]-or-[None] value is an [option string].  [truthy] is Python's
    truth test on such a value: [None] and [""] are false. *)
Definition truthy (v : option string) : bool :=
  match v with
  | Some s => negb (s =? "")
  | None => false
  end.

(** Equality of two [str]-or-[None] values ([==] in the source). *)
Definition py_eq (a b : option string) : bool :=
  match a, b with
  | Some x, Some y => x =? y
  | None, None => true
  | _, _ => false
  end.

(** [list.remove(x)]: drops the first occurrence, [ValueError] (here [None])
    when there is none. *)
Fixpoint list_remove (x : string) (l : list string) : option (list string) :=
  match l with
  | [] => None
  | y :: l' =>
      if y =? x then Some l'
      else match list_remove x l' with
           | Some r => Some (y :: r)
           | None => None
           end
  end.

(** A [dict] with string keys, in insertion order: assigning to a key that is
    already present keeps its position. *)
Definition dict (V : Type) := list (string * V).

Fixpoint dict_set {V} (k : string) (v : V) (d : dict V) : dict V :=
  match d with
  | [] => [(k, v)]
  | (k', v') :: d' =>
      if k' =? k then (k, v) :: d' else (k', v') :: dict_set k v d'
  end.

Definition dict_keys {V} (d : dict V) : list string := map fst d.

(** [repr] of a [str] and [str] of a list of them, as CPython prints them.
    A string stands for the [str] with the same code points, each of them
    below 256: the quote is the single one unless the string holds a single
    quote and no double one; the quote and the backslash are escaped with a
    backslash, tab, newline and carriage return are written [\t], [\n], [\r],
    and the other characters that are not printable (below the space, 127 to
    160, and 173) are written [\xhh]. *)
Definition double_quote : ascii := ascii_of_nat 34.

Fixpoint contains (c : ascii) (s : string) : bool :=
  match s with
  | EmptyString => false
  | String a s' => Ascii.eqb a c || contains c s'
  end.

Definition hex_digit (n : nat) : ascii :=
  match String.get n "0123456789abcdef" with
  | Some d => d
  | None => "0"%char
  end.

Definition py_escape (quote c : ascii) : string :=
  let n := nat_of_ascii c in
  if Ascii.eqb c quote || Ascii.eqb c "\"%char then String "\"%char (String c EmptyString)
  else if Nat.eqb n 9 then "\t"
  else if Nat.eqb n 10 then "\n"
  else if Nat.eqb n 13 then "\r"
  else if Nat.ltb n 32 || Nat.eqb n 127
          || (Nat.leb 128 n && Nat.leb n 160) || Nat.eqb n 173 then
    String "\"%char
      (String "x"%char
         (String (hex_digit (Nat.div n 16))
            (String (hex_digit (Nat.modulo n 16)) EmptyString)))
  else String c EmptyString.

Fixpoint py_escape_all (quote : ascii) (s : string) : string :=
  match s with
  | EmptyString => EmptyString
  | String c s' => py_escape quote c ++ py_escape_all quote s'
  end.

Definition py_repr (s : string) : string :=
  let quote :=
    if contains "'"%char s && negb (contains double_quote s) then double_quote
    else "'"%char in
  String quote (py_escape_all quote s ++ String quote EmptyString).

Definition py_str_list (l : list string) : string :=
  "[" ++ String.concat ", " (map py_repr l) ++ "]".

(** ** [os.path.splitext] (posixpath) *)

Fixpoint rfind_from (c : ascii) (s : string) (i : nat) (last : option nat)
  : option nat :=
  match s with
  | EmptyString => last
  | String a s' =>
      rfind_from c s' (S i) (if Ascii.eqb a c then Some i else last)
  end.

(** [p.rfind(c)], with [None] for Python's [-1]. *)
Definition rfind (c : ascii) (p : string) : option nat := rfind_from c p 0 None.

(** The [while] loop of [genericpath._splitext]: is there a character other
    than the dot in [p[filenameIndex:dotIndex]]?  [n] counts the remaining
    iterations, [dotIndex - filenameIndex]. *)
Fixpoint has_non_dot (p : string) (filenameIndex n : nat) : bool :=
  match n with
  | 0 => false
  | S n' =>
      match String.get filenameIndex p with
      | Some c =>
          if Ascii.eqb c "."%char then has_non_dot p (S filenameIndex) n'
          else true
      | None => true
      end
  end.

Definition splitext (p : string) : string * string :=
  let sepIndex := rfind "/"%char p in
  let dotIndex := rfind "."%char p in
  match dotIndex with
  | None => (p, "")
  | Some d =>
      let filenameIndex :=
        match sepIndex with Some s => S s | None => 0 end in
      if Nat.leb filenameIndex d && has_non_dot p filenameIndex (d - filenameIndex)
      then (substring 0 d p, substring d (String.length p - d) p)
      else (p, "")
  end.

(** ** Module parameters *)

(** The pagination dictionary [data] and the payload built from it. *)
Record Payload := {
  p_length : option nat;
  p_offset : option nat;
  p_filter : option string
}.

Record Checksum := {
  value : string;
  algorithm : string
}.

(** [module.params], after Ansible's own argument handling. *)
Record Params := {
  image_name : string;
  image_type : option string;
  image_url : option string;
  vm_disk : option string;
  vm_disk_uuid : option string;
  image_uuid : option string;
  image_description : option string;
  image_checksum : option Checksum;
  clusters : option (list string);
  data : option Payload;
  state : string
}.

(** The [AnsibleModule] object handed around as [module]. *)
Record Module := {
  params : Params;
  check_mode : bool
}.

(** ** Remote entities and request bodies *)

(** An entity of a listing, reduced to the fields the module reads:
    [metadata.uuid], [status.name], [status.resources.image_type],
    [status.get("description")] and the uuids of
    [status.resources.disk_list]. *)
Record Entity := {
  ent_uuid : string;
  ent_name : string;
  ent_image_type : string;
  ent_description : option string;
  ent_disk_list : list string
}.

(** The create request, [CREATE_PAYLOAD] with its optional keys. *)
Record CreatePayload := {
  cp_spec_name : string;
  cp_image_type : string;
  cp_initial_placement_ref_list : option (list string);
  cp_allow_insecure_connection : bool;
  cp_data_source_reference : option string;
  cp_source_uri : option string;
  cp_checksum : option Checksum;
  cp_description : string;
  cp_api_version : string;
  cp_metadata_kind : string;
  cp_metadata_name : string
}.

Definition CREATE_PAYLOAD : CreatePayload := {|
  cp_spec_name := "IMAGE_NAME";
  cp_image_type := "IMAGE_TYPE";
  cp_initial_placement_ref_list := Some [];
  cp_allow_insecure_connection := true;
  cp_data_source_reference := None;
  cp_source_uri := None;
  cp_checksum := None;
  cp_description := "";
  cp_api_version := "3.1.0";
  cp_metadata_kind := "image";
  cp_metadata_name := "IMAGE_NAME"
|}.

(** What [get_image] returns and [update_image] sends back: the image's
    intent, reduced to the keys [_update] touches.  [is_has_status] tells
    whether the top-level ["status"] key is present. *)
Record ImageSpec := {
  is_has_status : bool;
  is_spec_name : string;
  is_image_type : option string;
  is_description : option string;
  is_metadata_uuid : string
}.

(** ** The result dictionary *)

Record ImageState := {
  match_state : bool;
  match_name : bool;
  match_type : bool;
  match_description : bool
}.

(** [image_state.items()], in the insertion order of the literal. *)
Definition items (st : ImageState) : list (string * bool) :=
  [("match_state", match_state st); ("match_name", match_name st);
   ("match_type", match_type st); ("match_description", match_description st)].

Inductive Msg :=
| MsgStr (s : string)
| MsgList (l : list string).

(** [result]; [failed := false] stands for the key being absent (the source
    only ever stores [True] there), [None] for the other absent keys. *)
Record Result := {
  changed : bool;
  failed : bool;
  msg : option Msg;
  res_image_uuid : option string;
  image_count : option nat;
  res_image_state : option ImageState
}.

Definition set_changed (b : bool) (r : Result) : Result :=
  {| changed := b; failed := failed r; msg := msg r;
     res_image_uuid := res_image_uuid r; image_count := image_count r;
     res_image_state := res_image_state r |}.

Definition set_failed (b : bool) (r : Result) : Result :=
  {| changed := changed r; failed := b; msg := msg r;
     res_image_uuid := res_image_uuid r; image_count := image_count r;
     res_image_state := res_image_state r |}.

Definition set_msg (m : Msg) (r : Result) : Result :=
  {| changed := changed r; failed := failed r; msg := Some m;
     res_image_uuid := res_image_uuid r; image_count := image_count r;
     res_image_state := res_image_state r |}.

Definition set_image_uuid (u : string) (r : Result) : Result :=
  {| changed := changed r; failed := failed r; msg := msg r;
     res_image_uuid := Some u; image_count := image_count r;
     res_image_state := res_image_state r |}.

Definition set_image_count (n : nat) (r : Result) : Result :=
  {| changed := changed r; failed := failed r; msg := msg r;
     res_image_uuid := res_image_uuid r; image_count := Some n;
     res_image_state := res_image_state r |}.

Definition set_image_state (st : ImageState) (r : Result) : Result :=
  {| changed := changed r; failed := failed r; msg := msg r;
     res_image_uuid := res_image_uuid r; image_count := image_count r;
     res_image_state := Some st |}.

(** ** The API client *)

(** The calls the module makes on the client, as they reach the remote side. *)
Inductive Event :=
| EvNewClient
| EvList (kind : string) (payload : Payload)
| EvGet (uuid : option string)
| EvCreate (spec : CreatePayload)
| EvUpdate (uuid : option string) (spec : ImageSpec)
| EvDelete (uuid : string)
| EvPoll (task : string).

Definition is_create (e : Event) : bool :=
  match e with EvCreate _ => true | _ => false end.
Definition is_update (e : Event) : bool :=
  match e with EvUpdate _ _ => true | _ => false end.
Definition is_delete (e : Event) : bool :=
  match e with EvDelete _ => true | _ => false end.
Definition is_mutating (e : Event) : bool :=
  is_create e || is_update e || is_delete e.

(** Modelled from the spec: [module_utils/nutanix_api_client.py] is not part
    of the sources at hand; its functions are taken with the signatures the
    specification gives the collaborator client (section 6), over an
    arbitrary remote state [S].  What a call answers is left to the
    instance. *)
Class ApiClient (S : Type) := {
  api_list_entities : string -> Payload -> S -> list Entity * S;
  api_create_image : CreatePayload -> S -> (string * string) * S;
  api_update_image : option string -> ImageSpec -> S -> string * S;
  api_get_image : option string -> S -> ImageSpec * S;
  api_delete_image : string -> S -> option string * S;
  api_task_poll : string -> S -> option string * S
}.

Record World (S : Type) := {
  remote : S;
  trace : list Event
}.

(** ** The monad *)

Inductive PyError :=
| IndexError
| KeyError
| ValueError
| UnboundLocalError.

Inductive Outcome (A : Type) :=
| Returned (a : A)
| ExitJson (r : Result)
| FailJson (m : string)
| Raised (e : PyError).

Arguments Returned {A} a.
Arguments ExitJson {A} r.
Arguments FailJson {A} m.
Arguments Raised {A} e.

Definition M (S A : Type) : Type := World S -> Outcome A * World S.

Definition ret {S A} (a : A) : M S A := fun w => (Returned a, w).

Definition bind {S A B} (c : M S A) (k : A -> M S B) : M S B :=
  fun w =>
    match c w with
    | (Returned a, w') => k a w'
    | (ExitJson r, w') => (ExitJson r, w')
    | (FailJson m, w') => (FailJson m, w')
    | (Raised e, w') => (Raised e, w')
    end.

Definition exit_json {S A} (r : Result) : M S A := fun w => (ExitJson r, w).
Definition fail_json {S A} (m : string) : M S A := fun w => (FailJson m, w).
Definition raise {S A} (e : PyError) : M S A := fun w => (Raised e, w).

Declare Scope py_scope.
Delimit Scope py_scope with py.
Notation "x <- c ;; k" := (bind c (fun x => k))
  (at level 100, c at next level, right associativity) : py_scope.
Notation "' p <- c ;; k" := (bind c (fun x => let p := x in k))
  (at level 100, p pattern, c at next level, right associativity) : py_scope.
Open Scope py_scope.

(** A client call: the remote side answers and the call is appended to the
    trace. *)
Definition call {S A} (ev : Event) (f : S -> A * S) : M S A :=
  fun w =>
    let (a, r) := f (remote w) in
    (Returned a, {| remote := r; trace := trace w ++ [ev] |}).

(** ** The module's functions *)

Section NutanixImage.

Context {S : Type} {client : ApiClient S}.

(** [urlparse(url).path] of [urllib.parse] for a [str] URL, taken as given;
    [None] where [urlparse] raises its [ValueError] (a malformed host). *)
Variable urlparse_path : string -> option string.

(** The imported client functions, as the module calls them. *)
Definition list_entities (kind : string) (payload : Payload) : M S (list Entity) :=
  call (EvList kind payload) (api_list_entities kind payload).

Definition create_image (spec : CreatePayload) : M S (string * string) :=
  call (EvCreate spec) (api_create_image spec).

Definition update_image (uuid : option string) (spec : ImageSpec) : M S string :=
  call (EvUpdate uuid spec) (api_update_image uuid spec).

Definition get_image (uuid : option string) : M S ImageSpec :=
  call (EvGet uuid) (api_get_image uuid).

Definition delete_image (uuid : string) : M S (option string) :=
  call (EvDelete uuid) (api_delete_image uuid).

Definition task_poll (task : string) : M S (option string) :=
  call (EvPoll task) (api_task_poll task).

(** [NutanixApiClient(arg_spec)]. *)
Definition NutanixApiClient (module : Module) : M S unit :=
  fun w => (Returned tt, {| remote := remote w; trace := trace w ++ [EvNewClient] |}).

Definition set_list_payload (data : option Payload) : Payload :=
  let payload := {| p_length := None; p_offset := None; p_filter := None |} in
  match data with
  | Some d =>
      {| p_length := p_length d; p_offset := p_offset d; p_filter := p_filter d |}
  | None => payload
  end.

(** [generate_argument_spec]: the module object exists already; what is
    left is the dry-run exit. *)
Definition generate_argument_spec (module : Module) (result : Result) : M S Module :=
  if check_mode module then exit_json result else ret module.

(** The [for entity in image_list_data["entities"]] loop of
    [get_existing_image_state], with its three [break]s. *)
Fixpoint match_entities (image_name : string)
    (image_type image_description : option string) (entities : list Entity)
    (image_state : ImageState) (image_uuid : option string)
  : ImageState * option string :=
  match entities with
  | [] => (image_state, image_uuid)
  | entity :: rest =>
      if image_name =? ent_name entity then
        let existing_image_type := ent_image_type entity in
        let existing_image_description := ent_description entity in
        let image_state :=
          {| match_state := match_state image_state; match_name := true;
             match_type := match_type image_state;
             match_description := match_description image_state |} in
        let image_uuid := Some (ent_uuid entity) in
        if py_eq image_type (Some existing_image_type)
           && py_eq image_description existing_image_description then
          ({| match_state := true; match_name := match_name image_state;
              match_type := match_type image_state;
              match_description := match_description image_state |},
           image_uuid)
        else if py_eq image_type (Some existing_image_type) then
          ({| match_state := match_state image_state;
              match_name := match_name image_state; match_type := true;
              match_description := match_description image_state |},
           image_uuid)
        else if py_eq image_description existing_image_description then
          ({| match_state := match_state image_state;
              match_name := match_name image_state;
              match_type := match_type image_state;
              match_description := true |},
           image_uuid)
        else
          match_entities image_name image_type image_description rest
            image_state image_uuid
      else
        match_entities image_name image_type image_description rest
          image_state image_uuid
  end.

Definition get_existing_image_state (module : Module)
  : M S (ImageState * option string) :=
  let image_state :=
    {| match_state := false; match_name := false;
       match_type := false; match_description := false |} in
  let image_uuid : option string := None in
  let image_name := image_name (params module) in
  let image_type := image_type (params module) in
  let image_description := image_description (params module) in
  let payload := set_list_payload (data (params module)) in
  image_list_data <- list_entities "images" payload ;;
  ret (match_entities image_name image_type image_description
         image_list_data image_state image_uuid).

(** The inner loop of the cluster lookup: every listed cluster called
    [cluster_name] is recorded in the dictionary and appended to the
    placement list. *)
Fixpoint resolve_cluster (cluster_name : string) (entities : list Entity)
    (acc : dict string * list string) : dict string * list string :=
  match entities with
  | [] => acc
  | entity :: rest =>
      if ent_name entity =? cluster_name then
        let cluster_uuid := ent_uuid entity in
        resolve_cluster cluster_name rest
          (dict_set cluster_name cluster_uuid (fst acc), snd acc ++ [cluster_uuid])
      else resolve_cluster cluster_name rest acc
  end.

(** The outer loop, [for cluster_name in clusters]. *)
Fixpoint resolve_clusters (clusters : list string) (entities : list Entity)
    (acc : dict string * list string) : dict string * list string :=
  match clusters with
  | [] => acc
  | cluster_name :: rest =>
      resolve_clusters rest entities (resolve_cluster cluster_name entities acc)
  end.

(** [for cluster_name in cluster_name_and_uuid: clusters.remove(cluster_name)]. *)
Fixpoint remove_resolved (names : list string) (clusters : list string)
  : option (list string) :=
  match names with
  | [] => Some clusters
  | cluster_name :: rest =>
      match list_remove cluster_name clusters with
      | Some clusters' => remove_resolved rest clusters'
      | None => None
      end
  end.

(** The extension the auto-detection looks at, [None] when [urlparse]
    raises.  Without a URL, [urlparse(None)] gives an empty path, whose
    extension is empty. *)
Definition url_extension (image_url : option string) : option string :=
  match image_url with
  | Some url =>
      match urlparse_path url with
      | Some path => Some (snd (splitext path))
      | None => None
      end
  | None => Some ""
  end.

(** The body of [if not image_type:] in [create_image_spec]. *)
Definition detect_image_type (image_url : option string) : M S string :=
  match url_extension image_url with
  | None => raise ValueError
  | Some extension =>
      if extension =? ".iso" then ret "ISO_IMAGE"
      else if extension =? ".qcow2" then ret "DISK_IMAGE"
      else fail_json "Unable to identify image_type, specify the value manually"
  end.

Definition create_image_spec (module : Module) (result : Result)
  : M S CreatePayload :=
  let cluster_name_and_uuid : dict string := [] in
  let image_name := image_name (params module) in
  let image_url := image_url (params module) in
  let vm_disk := vm_disk (params module) in
  let vm_disk_uuid := vm_disk_uuid (params module) in
  let image_type := image_type (params module) in
  let image_description := image_description (params module) in
  let image_checksum := image_checksum (params module) in
  let clusters := clusters (params module) in
  let create_payload := CREATE_PAYLOAD in
  let vm_list_payload := set_list_payload (data (params module)) in
  (* Auto detect image_type based on url extension *)
  image_type <-
    match image_type with
    | Some t => if t =? "" then detect_image_type image_url else ret t
    | None => detect_image_type image_url
    end ;;
  (* Get VM UUID for image creation from VM Disk and update spec *)
  vm_disk_uuid <-
    (if truthy vm_disk && negb (truthy vm_disk_uuid) then
       let vm_list_payload :=
         {| p_length := p_length vm_list_payload;
            p_offset := p_offset vm_list_payload;
            p_filter := Some ("vm_name==" ++ match vm_disk with
                                             | Some n => n
                                             | None => ""
                                             end)%string |} in
       vm_list_data <- list_entities "vms" vm_list_payload ;;
       match vm_list_data with
       | [] => raise IndexError
       | vm :: _ =>
           match ent_disk_list vm with
           | [] => raise IndexError
           | disk_uuid :: _ => ret (Some disk_uuid)
           end
       end
     else ret vm_disk_uuid) ;;
  let create_payload :=
    if truthy vm_disk_uuid then
      {| cp_spec_name := cp_spec_name create_payload;
         cp_image_type := "DISK_IMAGE";
         cp_initial_placement_ref_list := cp_initial_placement_ref_list create_payload;
         cp_allow_insecure_connection := cp_allow_insecure_connection create_payload;
         cp_data_source_reference := vm_disk_uuid;
         cp_source_uri := cp_source_uri create_payload;
         cp_checksum := cp_checksum create_payload;
         cp_description := cp_description create_payload;
         cp_api_version := cp_api_version create_payload;
         cp_metadata_kind := cp_metadata_kind create_payload;
         cp_metadata_name := cp_metadata_name create_payload |}
    else if truthy image_url then
      {| cp_spec_name := cp_spec_name create_payload;
         cp_image_type := image_type;
         cp_initial_placement_ref_list := cp_initial_placement_ref_list create_payload;
         cp_allow_insecure_connection := cp_allow_insecure_connection create_payload;
         cp_data_source_reference := cp_data_source_reference create_payload;
         cp_source_uri := image_url;
         cp_checksum := cp_checksum create_payload;
         cp_description := cp_description create_payload;
         cp_api_version := cp_api_version create_payload;
         cp_metadata_kind := cp_metadata_kind create_payload;
         cp_metadata_name := cp_metadata_name create_payload |}
    else create_payload in
  (* Add image checksum *)
  let checksum :=
    match image_checksum with
    | Some c => if truthy image_url then Some c else cp_checksum create_payload
    | None => cp_checksum create_payload
    end in
  (* Get cluster UUID *)
  placement <-
    match clusters with
    | Some (c :: cs) =>
        let clusters := c :: cs in
        let cluster_payload := set_list_payload (data (params module)) in
        cluster_data <- list_entities "clusters" cluster_payload ;;
        let '(cluster_name_and_uuid, ref_list) :=
          resolve_clusters clusters cluster_data
            (cluster_name_and_uuid,
             match cp_initial_placement_ref_list create_payload with
             | Some l => l
             | None => []
             end) in
        if negb (Nat.eqb (List.length cluster_name_and_uuid) (List.length clusters)) then
          match remove_resolved (dict_keys cluster_name_and_uuid) clusters with
          | Some clusters =>
              fail_json ("Could not find cluster(s) with name " ++ py_str_list clusters)%string
          | None => raise ValueError
          end
        else ret (Some ref_list)
    | _ => ret None
    end ;;
  ret {| cp_spec_name := image_name;
         cp_image_type := cp_image_type create_payload;
         cp_initial_placement_ref_list := placement;
         cp_allow_insecure_connection := cp_allow_insecure_connection create_payload;
         cp_data_source_reference := cp_data_source_reference create_payload;
         cp_source_uri := cp_source_uri create_payload;
         cp_checksum := checksum;
         cp_description :=
           if truthy image_description
           then match image_description with Some d => d | None => "" end
           else cp_description create_payload;
         cp_api_version := cp_api_version create_payload;
         cp_metadata_kind := cp_metadata_kind create_payload;
         cp_metadata_name := image_name |}.

Definition _update (module : Module) (result : Result)
  : option string -> M S Result :=
  let image_type := image_type (params module) in
  let image_uuid_for_update := image_uuid (params module) in
  let image_description := image_description (params module) in
  fun image_uuid =>
  let image_uuid :=
    if truthy image_uuid_for_update then image_uuid_for_update else image_uuid in
  (* Get image spec *)
  image_spec <- get_image image_uuid ;;
  (* Update image spec *)
  if negb (is_has_status image_spec) then raise KeyError
  else
    let '(image_spec, image_uuid) :=
      if truthy image_description then
        ({| is_has_status := false; is_spec_name := is_spec_name image_spec;
            is_image_type := image_type; is_description := image_description;
            is_metadata_uuid := is_metadata_uuid image_spec |},
         image_uuid)
      else
        ({| is_has_status := false; is_spec_name := is_spec_name image_spec;
            is_image_type := image_type; is_description := Some "";
            is_metadata_uuid := is_metadata_uuid image_spec |},
         Some (is_metadata_uuid image_spec)) in
    (* Update image *)
    task_uuid <- update_image image_uuid image_spec ;;
    (* Poll task status for image update *)
    task_status <- task_poll task_uuid ;;
    match task_status with
    | Some status =>
        if negb (status =? "") then
          ret (set_msg (MsgStr status) (set_failed true result))
        else ret (set_changed true result)
    | None => ret (set_changed true result)
    end.

(** The [for state_name, state_value in image_state.items()] loop of
    [_create]: [Some c] when an iteration leaves the function through [c],
    [None] when the loop runs to its end. *)
Fixpoint dispatch_state (its : list (string * bool)) (module : Module)
    (result : Result) (image_state : ImageState) (image_uuid : option string)
  : option (M S Result) :=
  match its with
  | [] => None
  | (state_name, state_value) :: rest =>
      if (state_name =? "match_state") && state_value then
        Some (exit_json (set_image_state image_state result))
      else if negb (state_name =? "match_state") && state_value then
        Some (_update module result image_uuid)
      else dispatch_state rest module result image_state image_uuid
  end.

Definition _create (module : Module) (result : Result) : M S Result :=
  image_spec <- create_image_spec module result ;;
  (* Get existing image state *)
  st <- get_existing_image_state module ;;
  let '(image_state, image_uuid) := st in
  match dispatch_state (items image_state) module result image_state image_uuid with
  | Some leave => leave
  | None =>
      (* Create Image *)
      created <- create_image image_spec ;;
      let '(task_uuid, image_uuid) := created in
      task_status <- task_poll task_uuid ;;
      match task_status with
      | Some status =>
          if negb (status =? "") then
            ret (set_msg (MsgStr status) (set_failed true result))
          else ret (set_changed true (set_image_uuid image_uuid result))
      | None => ret (set_changed true (set_image_uuid image_uuid result))
      end
  end.

(** The listing loop of [_delete]: either it returns from inside the loop
    because a second image of that name was met, or it ends with the last
    matching uuid, the list of matching uuids and their number. *)
Inductive DeleteScan :=
| Ambiguous
| Scanned (image_uuid : option string) (image_uuid_list : list string)
    (image_count : nat).

Fixpoint scan_for_delete (image_name : string) (entities : list Entity)
    (image_uuid : option string) (image_uuid_list : list string)
    (image_count : nat) : DeleteScan :=
  match entities with
  | [] => Scanned image_uuid image_uuid_list image_count
  | entity :: rest =>
      let '(image_uuid, image_uuid_list, image_count) :=
        if image_name =? ent_name entity then
          (Some (ent_uuid entity), image_uuid_list ++ [ent_uuid entity],
           image_count + 1)
        else (image_uuid, image_uuid_list, image_count) in
      if Nat.ltb 1 image_count then Ambiguous
      else scan_for_delete image_name rest image_uuid image_uuid_list image_count
  end.

(** The loop over [task_uuid_list] at the end of [_delete]. *)
Fixpoint poll_deletions (tasks : list string) (result : Result) (msgs : list string)
  : M S Result :=
  match tasks with
  | [] => ret (set_msg (MsgList msgs) result)
  | tuuid :: rest =>
      task_status <- task_poll tuuid ;;
      match task_status with
      | Some status =>
          if negb (status =? "") then
            poll_deletions rest (set_failed true result) (msgs ++ [status])
          else poll_deletions rest result msgs
      | None => poll_deletions rest result msgs
      end
  end.

Definition finish_delete (task_uuid_list : list string) (result : Result)
  : M S Result :=
  match task_uuid_list with
  | [] => ret result
  | _ :: _ => poll_deletions task_uuid_list result []
  end.

Definition _delete (module : Module) (result : Result) : M S Result :=
  let task_uuid_list : list string := [] in
  let data := set_list_payload (data (params module)) in
  let image_name := image_name (params module) in
  if negb (image_name =? "") then
    image_list_data <- list_entities "images" data ;;
    match scan_for_delete image_name image_list_data None [] 0 with
    | Ambiguous =>
        ret (set_failed true
               (set_msg (MsgStr ("Found multiple images with name " ++ image_name)%string)
                  result))
    | Scanned image_uuid image_uuid_list image_count =>
        if Nat.eqb image_count 0 then ret result
        else
          match image_uuid_list with
          | [] => ret result
          | _ :: _ =>
              if Nat.eqb image_count 1 then
                let result := set_changed true (set_image_count 1 result) in
                match image_uuid with
                | None => raise UnboundLocalError
                | Some image_uuid =>
                    task_uuid <- delete_image image_uuid ;;
                    (* Check task status for removal of a single image *)
                    match task_uuid with
                    | Some task =>
                        if negb (task =? "") then
                          task_status <- task_poll task ;;
                          match task_status with
                          | Some status =>
                              if negb (status =? "") then
                                ret (set_msg (MsgStr status) (set_failed true result))
                              else finish_delete task_uuid_list result
                          | None => finish_delete task_uuid_list result
                          end
                        else finish_delete task_uuid_list result
                    | None => finish_delete task_uuid_list result
                    end
                end
              else finish_delete task_uuid_list result
          end
    end
  else ret (set_failed true result).

(** The seed of the result dictionary ([ansible_facts] stays empty
    throughout and is left out). *)
Definition result_init : Result :=
  {| changed := false; failed := false; msg := None;
     res_image_uuid := None; image_count := None; res_image_state := None |}.

(** [main] never returns: it ends in [exit_json], or in the
    [UnboundLocalError] of reading [result] when [state] is neither
    [present] nor [absent]. *)
Definition main (module : Module) : M S Empty_set :=
  arg_spec <- generate_argument_spec module result_init ;;
  (* Create api client *)
  api_client <- NutanixApiClient arg_spec ;;
  result <-
    (if state (params arg_spec) =? "present" then _create arg_spec result_init
     else if state (params arg_spec) =? "absent" then _delete arg_spec result_init
     else raise UnboundLocalError) ;;
  exit_json result.

End NutanixImage.

Arguments main {S client} urlparse_path module _.
Arguments _create {S client} urlparse_path module result _.
Arguments create_image_spec {S client} urlparse_path module result _.

(** ** A remote side to run the module against *)

(** A small Prism Central: the three listings, a counter for fresh uuids and
    the tasks that are going to fail, with their messages.  An empty
    description is stored as no description at all. *)
Record SimRemote := {
  sim_images : list Entity;
  sim_vms : list Entity;
  sim_clusters : list Entity;
  sim_next : nat;
  sim_failing : list (string * string)
}.

Definition fresh (prefix : string) (n : nat) : string :=
  prefix ++ NilZero.string_of_uint (Nat.to_uint n).

Definition stored_description (d : option string) : option string :=
  match d with
  | Some s => if s =? "" then None else Some s
  | None => None
  end.

Definition sim_with_images (imgs : list Entity) (n : nat) (r : SimRemote) : SimRemote :=
  {| sim_images := imgs; sim_vms := sim_vms r; sim_clusters := sim_clusters r;
     sim_next := n; sim_failing := sim_failing r |}.

Definition sim_list (kind : string) (payload : Payload) (r : SimRemote)
  : list Entity * SimRemote :=
  if kind =? "images" then (sim_images r, r)
  else if kind =? "clusters" then (sim_clusters r, r)
  else if kind =? "vms" then
    (match p_filter payload with
     | Some f =>
         filter (fun vm => ("vm_name==" ++ ent_name vm)%string =? f) (sim_vms r)
     | None => sim_vms r
     end, r)
  else ([], r).

Definition sim_create (spec : CreatePayload) (r : SimRemote)
  : (string * string) * SimRemote :=
  let uuid := fresh "image-" (sim_next r) in
  let created :=
    {| ent_uuid := uuid; ent_name := cp_spec_name spec;
       ent_image_type := cp_image_type spec;
       ent_description := stored_description (Some (cp_description spec));
       ent_disk_list := [] |} in
  ((fresh "task-" (sim_next r), uuid),
   sim_with_images (sim_images r ++ [created]) (Datatypes.S (sim_next r)) r).

Definition sim_find (uuid : option string) (r : SimRemote) : option Entity :=
  find (fun e => py_eq uuid (Some (ent_uuid e))) (sim_images r).

Definition sim_get (uuid : option string) (r : SimRemote) : ImageSpec * SimRemote :=
  (match sim_find uuid r with
   | Some e =>
       {| is_has_status := true; is_spec_name := ent_name e;
          is_image_type := Some (ent_image_type e);
          is_description := ent_description e;
          is_metadata_uuid := ent_uuid e |}
   | None =>
       {| is_has_status := false; is_spec_name := ""; is_image_type := None;
          is_description := None; is_metadata_uuid := "" |}
   end, r).

Definition sim_update (uuid : option string) (spec : ImageSpec) (r : SimRemote)
  : string * SimRemote :=
  let rewrite (e : Entity) :=
    if py_eq uuid (Some (ent_uuid e)) then
      {| ent_uuid := ent_uuid e; ent_name := ent_name e;
         ent_image_type :=
           match is_image_type spec with Some t => t | None => ent_image_type e end;
         ent_description := stored_description (is_description spec);
         ent_disk_list := ent_disk_list e |}
    else e in
  (fresh "task-" (sim_next r),
   sim_with_images (map rewrite (sim_images r)) (Datatypes.S (sim_next r)) r).

Definition sim_delete (uuid : string) (r : SimRemote) : option string * SimRemote :=
  (Some (fresh "task-" (sim_next r)),
   sim_with_images (filter (fun e => negb (ent_uuid e =? uuid)) (sim_images r))
     (Datatypes.S (sim_next r)) r).

Definition sim_poll (task : string) (r : SimRemote) : option string * SimRemote :=
  (match find (fun tm => fst tm =? task) (sim_failing r) with
   | Some tm => Some (snd tm)
   | None => None
   end, r).

#[export] Instance sim_client : ApiClient SimRemote := {|
  api_list_entities := sim_list;
  api_create_image := sim_create;
  api_update_image := sim_update;
  api_get_image := sim_get;
  api_delete_image := sim_delete;
  api_task_poll := sim_poll
|}.

(** The path of a URL of the shape [scheme://host/path?query#fragment], which
    is what [urlparse] answers on such a URL; like [urlparse], it refuses a
    host with an opening bracket and no closing one, or the reverse. *)
Fixpoint drop_until (stop : ascii -> bool) (s : string) : string :=
  match s with
  | EmptyString => EmptyString
  | String a s' => if stop a then s else drop_until stop s'
  end.

Fixpoint take_until (stop : ascii -> bool) (s : string) : string :=
  match s with
  | EmptyString => EmptyString
  | String a s' => if stop a then EmptyString else String a (take_until stop s')
  end.

Definition simple_url_path (url : string) : option string :=
  let ends_host := (fun a => Ascii.eqb a "/" || Ascii.eqb a "?" || Ascii.eqb a "#")%char in
  let ends_path := (fun a => Ascii.eqb a "?" || Ascii.eqb a "#")%char in
  match index 0 "://" url with
  | Some i =>
      let after_scheme := substring (i + 3) (String.length url) url in
      let host := take_until ends_host after_scheme in
      if Bool.eqb (contains "["%char host) (contains "]"%char host) then
        Some (take_until ends_path (drop_until ends_host after_scheme))
      else None
  | None => Some (take_until ends_path url)
  end.

Definition start (r : SimRemote) : World SimRemote := {| remote := r; trace := [] |}.

Definition empty_remote : SimRemote :=
  {| sim_images := []; sim_vms := []; sim_clusters := [];
     sim_next := 0; sim_failing := [] |}.

(** Parameters with only a name, as after Ansible's defaults. *)
Definition params_named (name st : string) : Params :=
  {| image_name := name; image_type := None; image_url := None;
     vm_disk := None; vm_disk_uuid := None; image_uuid := None;
     image_description := None; image_checksum := None; clusters := None;
     data := Some {| p_length := Some 500; p_offset := Some 0; p_filter := None |};
     state := st |}.

Definition with_url (url : string) (p : Params) : Params :=
  {| image_name := image_name p; image_type := image_type p; image_url := Some url;
     vm_disk := vm_disk p; vm_disk_uuid := vm_disk_uuid p; image_uuid := image_uuid p;
     image_description := image_description p; image_checksum := image_checksum p;
     clusters := clusters p; data := data p; state := state p |}.

Definition with_type (t : option string) (p : Params) : Params :=
  {| image_name := image_name p; image_type := t; image_url := image_url p;
     vm_disk := vm_disk p; vm_disk_uuid := vm_disk_uuid p; image_uuid := image_uuid p;
     image_description := image_description p; image_checksum := image_checksum p;
     clusters := clusters p; data := data p; state := state p |}.

Definition with_description (d : string) (p : Params) : Params :=
  {| image_name := image_name p; image_type := image_type p; image_url := image_url p;
     vm_disk := vm_disk p; vm_disk_uuid := vm_disk_uuid p; image_uuid := image_uuid p;
     image_description := Some d; image_checksum := image_checksum p;
     clusters := clusters p; data := data p; state := state p |}.

Definition with_clusters (c : list string) (p : Params) : Params :=
  {| image_name := image_name p; image_type := image_type p; image_url := image_url p;
     vm_disk := vm_disk p; vm_disk_uuid := vm_disk_uuid p; image_uuid := image_uuid p;
     image_description := image_description p; image_checksum := image_checksum p;
     clusters := Some c; data := data p; state := state p |}.

Definition with_vm_disk (d : string) (p : Params) : Params :=
  {| image_name := image_name p; image_type := image_type p; image_url := image_url p;
     vm_disk := Some d; vm_disk_uuid := vm_disk_uuid p; image_uuid := image_uuid p;
     image_description := image_description p; image_checksum := image_checksum p;
     clusters := clusters p; data := data p; state := state p |}.

Definition with_vm_disk_uuid (d : string) (p : Params) : Params :=
  {| image_name := image_name p; image_type := image_type p; image_url := image_url p;
     vm_disk := vm_disk p; vm_disk_uuid := Some d; image_uuid := image_uuid p;
     image_description := image_description p; image_checksum := image_checksum p;
     clusters := clusters p; data := data p; state := state p |}.

Definition run (p : Params) : Module := {| params := p; check_mode := false |}.
Definition dry_run (p : Params) : Module := {| params := p; check_mode := true |}.

Definition image (uuid name type : string) (d : option string) : Entity :=
  {| ent_uuid := uuid; ent_name := name; ent_image_type := type;
     ent_description := d; ent_disk_list := [] |}.

Definition cluster (uuid name : string) : Entity :=
  {| ent_uuid := uuid; ent_name := name; ent_image_type := "";
     ent_description := None; ent_disk_list := [] |}.

(** ** Vocabulary of the statements *)

(** The entities of a listing that carry the requested name. *)
Definition same_name (name : string) (e : Entity) : bool := name =? ent_name e.

Definition named (name : string) (entities : list Entity) : list Entity :=
  filter (same_name name) entities.

(** An entity agrees with the request on the type or on the description. *)
Definition further_match (type description : option string) (e : Entity) : bool :=
  py_eq type (Some (ent_image_type e)) || py_eq description (ent_description e).

(** The uuid the scan of [get_existing_image_state] ends with: that of the
    first entity of the requested name that agrees on the type or on the
    description, and without such an entity that of the last entity of the
    requested name. *)
Definition matched_uuid (name : string) (type description : option string)
    (entities : list Entity) : option string :=
  match find (further_match type description) (named name entities) with
  | Some e => Some (ent_uuid e)
  | None => last (map (fun e => Some (ent_uuid e)) (named name entities)) None
  end.

(** The uuid of the first entity of the requested name. *)
Definition first_named_uuid (name : string) (entities : list Entity) : option string :=
  option_map ent_uuid (find (same_name name) entities).

Definition set_image_type (t : option string) (module : Module) : Module :=
  {| params := with_type t (params module); check_mode := check_mode module |}.

Definition no_state : ImageState :=
  {| match_state := false; match_name := false;
     match_type := false; match_description := false |}.

Definition unidentified : string :=
  "Unable to identify image_type, specify the value manually".

(** The requested cluster names no listed cluster carries. *)
Definition resolved (entities : list Entity) (cluster_name : string) : bool :=
  existsb (fun e => ent_name e =? cluster_name) entities.

Definition unresolved (entities : list Entity) (clusters : list string) : list string :=
  filter (fun c => negb (resolved entities c)) clusters.

(** What [_update] sends as description. *)
Definition update_description (module : Module) : string :=
  match image_description (params module) with
  | Some d => d
  | None => ""
  end.

(** The uuid [_update] reads the image under: the [image_uuid] parameter
    when there is one, the matched uuid otherwise. *)
Definition update_target (module : Module) (matched : option string) : option string :=
  if truthy (image_uuid (params module)) then image_uuid (params module) else matched.

(** The request built from a URL as the only source, with the type [type]
    and no placement: the template with name, type, URL, checksum and
    description filled in and the placement list removed. *)
Definition url_request (p : Params) (type : string) : CreatePayload :=
  {| cp_spec_name := image_name p;
     cp_image_type := type;
     cp_initial_placement_ref_list := None;
     cp_allow_insecure_connection := true;
     cp_data_source_reference := None;
     cp_source_uri := image_url p;
     cp_checksum := image_checksum p;
     cp_description := match image_description p with Some d => d | None => "" end;
     cp_api_version := "3.1.0";
     cp_metadata_kind := "image";
     cp_metadata_name := image_name p |}.

(** The URL is the only source of the request. *)
Definition url_is_source (p : Params) : Prop :=
  truthy (vm_disk p) = false /\ truthy (vm_disk_uuid p) = false
  /\ truthy (image_url p) = true.

(** No placement is requested. *)
Definition no_clusters (p : Params) : Prop :=
  clusters p = None \/ clusters p = Some [].

(** ** Scenarios *)

(** The image of the specification's examples, with the type left to the
    detection, with the type given, and with type and description given. *)
Definition ubuntu20 : Params :=
  with_url "http://images.example/iso/ubuntu20.iso" (params_named "ubuntu20" "present").

Definition ubuntu20_typed : Params := with_type (Some "ISO_IMAGE") ubuntu20.

Definition ubuntu20_described : Params := with_description "Ubuntu 20.04" ubuntu20_typed.

Definition ubuntu20_absent : Params := params_named "ubuntu20" "absent".

Definition remote_with (imgs cls : list Entity) (failing : list (string * string))
  : SimRemote :=
  {| sim_images := imgs; sim_vms := []; sim_clusters := cls;
     sim_next := 0; sim_failing := failing |}.

(** The remote side after a first [present] pass on [ubuntu20]. *)
Definition after_first_pass : SimRemote :=
  remote (snd (main simple_url_path (run ubuntu20) (start empty_remote))).

(** One image of the name, differing from [ubuntu20_described] in type and
    in description. *)
Definition other_ubuntu20 : SimRemote :=
  remote_with [image "u1" "ubuntu20" "DISK_IMAGE" (Some "old")] [] [].

(** Two images of the name, neither agreeing with [ubuntu20_described] on a
    field. *)
Definition two_ubuntu20 : SimRemote :=
  remote_with [image "u1" "ubuntu20" "DISK_IMAGE" (Some "old");
               image "u2" "ubuntu20" "DISK_IMAGE" (Some "older")] [] [].

(** One image of the name whose delete task is going to fail. *)
Definition stuck_ubuntu20 : SimRemote :=
  remote_with [image "other" "debian11" "ISO_IMAGE" None;
               image "u1" "ubuntu20" "ISO_IMAGE" None] []
    [("task-0", "image is in use")].

(** One image of the name that agrees with [ubuntu20_described] on both
    fields. *)
Definition same_ubuntu20 : SimRemote :=
  remote_with [image "u1" "ubuntu20" "ISO_IMAGE" (Some "Ubuntu 20.04")] [] [].

(** The image of the first pass, had the remote side kept the empty
    description as such. *)
Definition after_first_pass_verbatim : SimRemote :=
  remote_with [image "image-0" "ubuntu20" "ISO_IMAGE" (Some "")] [] [].

(** A disk image and a raw image, both with the type left to the detection,
    and an image taken from the disk of a VM. *)
Definition debian11 : Params :=
  with_url "http://images.example/debian11.qcow2" (params_named "debian11" "present").

Definition fedora_raw : Params :=
  with_url "http://images.example/fedora.raw" (params_named "fedora" "present").

Definition golden_disk : Params :=
  with_vm_disk "golden-vm" (params_named "golden" "present").

Definition list_images : Event :=
  EvList "images" {| p_length := Some 500; p_offset := Some 0; p_filter := None |}.

Definition list_clusters : Event :=
  EvList "clusters" {| p_length := Some 500; p_offset := Some 0; p_filter := None |}.

Definition name_only : ImageState :=
  {| match_state := false; match_name := true;
     match_type := false; match_description := false |}.

(** The create request of [ubuntu20] and [ubuntu20_typed]. *)
Definition ubuntu20_request : CreatePayload :=
  {| cp_spec_name := "ubuntu20"; cp_image_type := "ISO_IMAGE";
     cp_initial_placement_ref_list := None; cp_allow_insecure_connection := true;
     cp_data_source_reference := None;
     cp_source_uri := Some "http://images.example/iso/ubuntu20.iso";
     cp_checksum := None; cp_description := ""; cp_api_version := "3.1.0";
     cp_metadata_kind := "image"; cp_metadata_name := "ubuntu20" |}.

Definition cp_with_description (d : string) (c : CreatePayload) : CreatePayload :=
  {| cp_spec_name := cp_spec_name c; cp_image_type := cp_image_type c;
     cp_initial_placement_ref_list := cp_initial_placement_ref_list c;
     cp_allow_insecure_connection := cp_allow_insecure_connection c;
     cp_data_source_reference := cp_data_source_reference c;
     cp_source_uri := cp_source_uri c; cp_checksum := cp_checksum c;
     cp_description := d; cp_api_version := cp_api_version c;
     cp_metadata_kind := cp_metadata_kind c; cp_metadata_name := cp_metadata_name c |}.

Definition remote_with_next (n : nat) (imgs : list Entity) : SimRemote :=
  {| sim_images := imgs; sim_vms := []; sim_clusters := [];
     sim_next := n; sim_failing := [] |}.

Definition full_match : ImageState :=
  {| match_state := true; match_name := true;
     match_type := false; match_description := false |}.

(** Only cluster [A] exists. *)
Definition cluster_A_only : SimRemote :=
  remote_with [] [cluster "c-a" "A"] [].

(** ** Vocabulary of the further properties *)

(** Whatever the world it starts in, the computation only appends to the
    trace, and at most [n] of the calls it appends satisfy [p]. *)
Definition issues_at_most {S A} (p : Event -> bool) (n : nat) (c : M S A) : Prop :=
  forall w, exists evs,
    trace (snd (c w)) = trace w ++ evs /\ List.length (filter p evs) <= n.

(** The entity agrees with the request on the type, on the description. *)
Definition type_agrees (type : option string) (e : Entity) : bool :=
  py_eq type (Some (ent_image_type e)).

Definition description_agrees (description : option string) (e : Entity) : bool :=
  py_eq description (ent_description e).

(** The placement references of a request: for every requested name, in the
    order of the request, the uuids of the listed clusters of that name. *)
Definition placement_of (entities : list Entity) (clusters : list string) : list string :=
  flat_map
    (fun c => map ent_uuid (filter (fun e => ent_name e =? c) entities))
    clusters.

(** What the template leaves in a request as description. *)
Definition request_description (p : Params) : string :=
  match image_description p with
  | Some d => d
  | None => ""
  end.

Definition is_listing (e : Event) : bool :=
  match e with EvList _ _ => true | _ => false end.

(** The listing [_delete] and [get_existing_image_state] ask for. *)
Definition images_listing (module : Module) : Event :=
  EvList "images" (set_list_payload (data (params module))).

(** The specification [_update] sends back: the one read, without its status
    section, with type and description overwritten. *)
Definition update_request (module : Module) (current : ImageSpec) : ImageSpec :=
  {| is_has_status := false; is_spec_name := is_spec_name current;
     is_image_type := image_type (params module);
     is_description := Some (request_description (params module));
     is_metadata_uuid := is_metadata_uuid current |}.

(** The uuid [_update] sends it under. *)
Definition update_uuid (module : Module) (matched : option string)
    (current : ImageSpec) : option string :=
  if truthy (image_description (params module)) then update_target module matched
  else Some (is_metadata_uuid current).

(** A task status that counts as a failure, with its message. *)
Definition failure_of (status : option string) : option string :=
  match status with
  | Some s => if s =? "" then None else Some s
  | None => None
  end.

Definition set_vm_disk_uuid (d : string) (module : Module) : Module :=
  {| params := with_vm_disk_uuid d (params module); check_mode := check_mode module |}.

(** The payload of the VM lookup: the pagination of [data] with the filter
    on the name of the VM. *)
Definition vm_lookup (module : Module) : Payload :=
  {| p_length := p_length (set_list_payload (data (params module)));
     p_offset := p_offset (set_list_payload (data (params module)));
     p_filter := Some ("vm_name==" ++ match vm_disk (params module) with
                                      | Some n => n
                                      | None => ""
                                      end)%string |}.

Definition clusters_listing (module : Module) : Event :=
  EvList "clusters" (set_list_payload (data (params module))).

(** The request [create_image_spec] ends with, given the type it settled
    on, the disk uuid it settled on and the placement list. *)
Definition built_request (p : Params) (type : string) (disk : option string)
    (placement : option (list string)) : CreatePayload :=
  {| cp_spec_name := image_name p;
     cp_image_type :=
       if truthy disk then "DISK_IMAGE"
       else if truthy (image_url p) then type else "IMAGE_TYPE";
     cp_initial_placement_ref_list := placement;
     cp_allow_insecure_connection := true;
     cp_data_source_reference := if truthy disk then disk else None;
     cp_source_uri :=
       if truthy disk then None
       else if truthy (image_url p) then image_url p else None;
     cp_checksum := if truthy (image_url p) then image_checksum p else None;
     cp_description := request_description p;
     cp_api_version := "3.1.0";
     cp_metadata_kind := "image";
     cp_metadata_name := image_name p |}.

(** The three steps of [create_image_spec] that can leave the function, cut
    out of it one by one: the type, the disk uuid, the placement. *)
Section Steps.

Context {S : Type} {client : ApiClient S}.
Variable urlparse_path : string -> option string.

Definition settle_type (module : Module) : M S string :=
  match image_type (params module) with
  | Some t =>
      if t =? "" then detect_image_type urlparse_path (image_url (params module))
      else ret t
  | None => detect_image_type urlparse_path (image_url (params module))
  end.

Definition settle_disk (module : Module) : M S (option string) :=
  if truthy (vm_disk (params module)) && negb (truthy (vm_disk_uuid (params module)))
  then
    vm_list_data <- list_entities "vms" (vm_lookup module) ;;
    match vm_list_data with
    | [] => raise IndexError
    | vm :: _ =>
        match ent_disk_list vm with
        | [] => raise IndexError
        | disk_uuid :: _ => ret (Some disk_uuid)
        end
    end
  else ret (vm_disk_uuid (params module)).

Definition settle_placement (module : Module) : M S (option (list string)) :=
  match clusters (params module) with
  | Some (c :: cs) =>
      cluster_data <-
        list_entities "clusters" (set_list_payload (data (params module))) ;;
      let '(cluster_name_and_uuid, ref_list) :=
        resolve_clusters (c :: cs) cluster_data ([], []) in
      if negb (Nat.eqb (List.length cluster_name_and_uuid) (List.length (c :: cs))) then
        match remove_resolved (dict_keys cluster_name_and_uuid) (c :: cs) with
        | Some clusters =>
            fail_json ("Could not find cluster(s) with name " ++ py_str_list clusters)%string
        | None => raise ValueError
        end
      else ret (Some ref_list)
  | _ => ret None
  end.

End Steps.

(** ** Further scenarios *)

Definition vm (uuid name : string) (disks : list string) : Entity :=
  {| ent_uuid := uuid; ent_name := name; ent_image_type := "";
     ent_description := None; ent_disk_list := disks |}.

(** The VM of [golden_disk], with two disks. *)
Definition golden_remote : SimRemote :=
  {| sim_images := []; sim_vms := [vm "vm-1" "golden-vm" ["disk-7"; "disk-8"]];
     sim_clusters := []; sim_next := 0; sim_failing := [] |}.

Definition golden_typed : Params := with_type (Some "DISK_IMAGE") golden_disk.

(** A remote side on which the first task fails. *)
Definition failing_remote : SimRemote :=
  remote_with [] [] [("task-0", "no space left")].

(** Clusters [A] and [B]. *)
Definition clusters_A_B : SimRemote :=
  remote_with [] [cluster "c-a" "A"; cluster "c-b" "B"] [].

Definition ubuntu20_placed : Params := with_clusters ["B"; "A"] ubuntu20_typed.

Definition ubuntu20_misplaced : Params := with_clusters ["A"; "C"; "D"] ubuntu20_typed.

(** No name, an unknown state, an empty URL with a type. *)
Definition nameless_absent : Params := params_named "" "absent".

Definition ubuntu20_latest : Params := params_named "ubuntu20" "latest".

Definition empty_url_typed : Params :=
  with_type (Some "ISO_IMAGE") (with_url "" (params_named "blank" "present")).

(** A URL whose host opens a bracket and never closes it, with the type left
    to the detection. *)
Definition bracket_url : Params :=
  with_url "http://[::1/ubuntu20.iso" (params_named "ubuntu20" "present").

(** [ubuntu20] with a disk uuid next to its URL. *)
Definition ubuntu20_from_disk : Params := with_vm_disk_uuid "disk-1" ubuntu20_typed.

(** A client like [sim_client] whose delete call hands back no task. *)
Definition taskless_client : ApiClient SimRemote := {|
  api_list_entities := sim_list;
  api_create_image := sim_create;
  api_update_image := sim_update;
  api_get_image := sim_get;
  api_delete_image := fun uuid r => (None, snd (sim_delete uuid r));
  api_task_poll := sim_poll
|}.

(** One image named [ubuntu20]. *)
Definition one_ubuntu20 : SimRemote :=
  remote_with [image "u1" "ubuntu20" "ISO_IMAGE" None] [] [].

(** ** Properties *)

Section Properties.

Context {S : Type} {client : ApiClient S}.
Variable urlparse_path : string -> option string.

Lemma truthy_some (s : string) : s <> "" -> truthy (Some s) = true.
Proof.
  intros H. unfold truthy. apply String.eqb_neq in H. now rewrite H.
Qed.

Lemma nonempty_eqb (s : string) : s <> "" -> negb (s =? "") = true.
Proof. intros H. apply String.eqb_neq in H. now rewrite H. Qed.

(** *** Deletion *)

Lemma scan_for_delete_ambiguous (name : string) (es : list Entity) :
  forall u l c,
    c <= 1 -> 2 <= c + List.length (named name es) ->
    scan_for_delete name es u l c = Ambiguous.
Proof.
  induction es as [|e es IH]; intros u l c Hc Hlen; simpl in *.
  - lia.
  - unfold same_name in Hlen.
    destruct (name =? ent_name e) eqn:Hn; simpl in *.
    + destruct c as [|[|c]]; simpl; try lia; trivial.
      apply IH; simpl; lia.
    + destruct c as [|[|c]]; simpl; try lia; apply IH; simpl; lia.
Qed.

Lemma scan_for_delete_none (name : string) (es : list Entity) :
  forall u l c,
    c <= 1 -> named name es = [] ->
    scan_for_delete name es u l c = Scanned u l c.
Proof.
  induction es as [|e es IH]; intros u l c Hc Hnone; simpl in *; trivial.
  unfold same_name in Hnone.
  destruct (name =? ent_name e) eqn:Hn; [discriminate|].
  destruct c as [|[|c]]; simpl; try lia; apply IH; trivial; lia.
Qed.

Lemma scan_for_delete_single (name : string) (es : list Entity) (e : Entity) :
  forall u l,
    named name es = [e] ->
    scan_for_delete name es u l 0 = Scanned (Some (ent_uuid e)) (l ++ [ent_uuid e]) 1.
Proof.
  induction es as [|x es IH]; intros u l Hone; simpl in *; [discriminate|].
  unfold same_name in Hone.
  destruct (name =? ent_name x) eqn:Hn; simpl.
  - injection Hone as -> Hrest.
    apply scan_for_delete_none; trivial.
  - apply IH; trivial.
Qed.

Lemma delete_ambiguous
    (module : Module) (result : Result) (w : World S)
    (es : list Entity) (r' : S) :
  image_name (params module) <> "" ->
  api_list_entities "images" (set_list_payload (data (params module))) (remote w)
    = (es, r') ->
  2 <= List.length (named (image_name (params module)) es) ->
  _delete module result w =
    (Returned
       (set_failed true
          (set_msg
             (MsgStr ("Found multiple images with name " ++ image_name (params module)))
             result)),
     {| remote := r';
        trace := trace w ++
          [EvList "images" (set_list_payload (data (params module)))] |}).
Proof.
  intros Hname Hlist Hmany.
  unfold _delete. rewrite (nonempty_eqb Hname).
  unfold bind, list_entities, call. rewrite Hlist.
  rewrite scan_for_delete_ambiguous; trivial. lia.
Qed.

Lemma delete_single_failure
    (module : Module) (result : Result) (w : World S)
    (es : list Entity) (e : Entity) (task status : string) (r1 r2 r3 : S) :
  image_name (params module) <> "" ->
  api_list_entities "images" (set_list_payload (data (params module))) (remote w)
    = (es, r1) ->
  named (image_name (params module)) es = [e] ->
  api_delete_image (ent_uuid e) r1 = (Some task, r2) ->
  task <> "" ->
  api_task_poll task r2 = (Some status, r3) ->
  status <> "" ->
  _delete module result w =
    (Returned
       (set_msg (MsgStr status)
          (set_failed true (set_changed true (set_image_count 1 result)))),
     {| remote := r3;
        trace := trace w ++
          [EvList "images" (set_list_payload (data (params module)));
           EvDelete (ent_uuid e); EvPoll task] |}).
Proof.
  intros Hname Hlist Hone Hdel Htask Hpoll Hstatus.
  unfold _delete. rewrite (nonempty_eqb Hname).
  unfold bind at 1. unfold list_entities, call at 1. rewrite Hlist.
  rewrite scan_for_delete_single with (e := e) by exact Hone. simpl.
  unfold bind at 1. unfold delete_image, call at 1. simpl. rewrite Hdel.
  rewrite (nonempty_eqb Htask).
  unfold bind, task_poll, call. simpl. rewrite Hpoll.
  rewrite (nonempty_eqb Hstatus). unfold ret.
  rewrite <- !app_assoc. simpl. reflexivity.
Qed.

(** An [absent] pass outside check mode: the client is built, [_delete]
    runs on the seed result, and what it returns goes to [exit_json]. *)
Lemma main_absent (module : Module) (w : World S) :
  check_mode module = false ->
  state (params module) = "absent" ->
  main urlparse_path module w =
    (result <- _delete module result_init ;; exit_json result)
      {| remote := remote w; trace := trace w ++ [EvNewClient] |}.
Proof.
  intros Hcheck Hstate.
  unfold main, generate_argument_spec. rewrite Hcheck.
  unfold bind at 1. unfold ret at 1.
  unfold bind at 1. unfold NutanixApiClient at 1.
  rewrite Hstate. reflexivity.
Qed.

(** C2. With a requested name and two or more listed images of that name,
    [_delete] returns the result marked failed with the message
    "Found multiple images with name <name>"; the listing is the only client
    call it made, so no delete call was issued.  An [absent] pass ends with
    that result, after the listing and nothing else. *)
Theorem delete_ambiguous_fails_without_deleting
    (module : Module) (result : Result) (w : World S)
    (es : list Entity) (r' : S) :
  image_name (params module) <> "" ->
  api_list_entities "images" (set_list_payload (data (params module))) (remote w)
    = (es, r') ->
  2 <= List.length (named (image_name (params module)) es) ->
  let listing := EvList "images" (set_list_payload (data (params module))) in
  let ambiguous r :=
    set_failed true
      (set_msg (MsgStr ("Found multiple images with name " ++ image_name (params module)))
         r) in
  _delete module result w =
    (Returned (ambiguous result), {| remote := r'; trace := trace w ++ [listing] |})
  /\ filter is_delete (trace w ++ [listing]) = filter is_delete (trace w)
  /\ (check_mode module = false -> state (params module) = "absent" ->
      main urlparse_path module w =
        (ExitJson (ambiguous result_init),
         {| remote := r'; trace := trace w ++ [EvNewClient; listing] |})).
Proof.
  intros Hname Hlist Hmany listing ambiguous. split; [|split].
  - eapply delete_ambiguous; eassumption.
  - rewrite filter_app; simpl. apply app_nil_r.
  - intros Hcheck Hstate. rewrite main_absent; trivial.
    unfold bind. rewrite delete_ambiguous with (es := es) (r' := r'); trivial.
    simpl. rewrite <- app_assoc. reflexivity.
Qed.

(** C9. With a requested name, exactly one listed image of that name, a
    delete call that hands back a task and a poll of that task that reports
    a failure, [_delete] returns with [changed] true, [failed] true and the
    task's message: [changed] was stored before the delete call and the poll
    and stays.  An [absent] pass ends with that result. *)
Theorem delete_task_failure_keeps_changed
    (module : Module) (result : Result) (w : World S)
    (es : list Entity) (e : Entity) (task status : string) (r1 r2 r3 : S) :
  image_name (params module) <> "" ->
  api_list_entities "images" (set_list_payload (data (params module))) (remote w)
    = (es, r1) ->
  named (image_name (params module)) es = [e] ->
  api_delete_image (ent_uuid e) r1 = (Some task, r2) ->
  task <> "" ->
  api_task_poll task r2 = (Some status, r3) ->
  status <> "" ->
  let calls :=
    [EvList "images" (set_list_payload (data (params module)));
     EvDelete (ent_uuid e); EvPoll task] in
  let outcome r :=
    set_msg (MsgStr status) (set_failed true (set_changed true (set_image_count 1 r))) in
  _delete module result w =
    (Returned (outcome result), {| remote := r3; trace := trace w ++ calls |})
  /\ changed (outcome result) = true
  /\ failed (outcome result) = true
  /\ msg (outcome result) = Some (MsgStr status)
  /\ (check_mode module = false -> state (params module) = "absent" ->
      main urlparse_path module w =
        (ExitJson (outcome result_init),
         {| remote := r3; trace := trace w ++ EvNewClient :: calls |})).
Proof.
  intros Hname Hlist Hone Hdel Htask Hpoll Hstatus calls outcome.
  split; [|repeat split].
  - eapply delete_single_failure; eassumption.
  - intros Hcheck Hstate. rewrite main_absent; trivial.
    unfold bind.
    rewrite delete_single_failure
      with (es := es) (e := e) (task := task) (status := status)
           (r1 := r1) (r2 := r2) (r3 := r3); trivial.
    simpl. rewrite <- app_assoc. reflexivity.
Qed.

(** *** Dry run *)

(** C10. In check mode [main] leaves through [exit_json] with the seed
    result, whose [changed] is false, and the world is the one it started
    from: no client was built and no call was made, whatever the parameters. *)
Theorem check_mode_exits_untouched (p : Params) (w : World S) :
  main urlparse_path {| params := p; check_mode := true |} w
    = (ExitJson result_init, w)
  /\ changed result_init = false.
Proof. split; reflexivity. Qed.

(** *** Update *)

(** C6. Once the image has been read back (with its status section),
    [_update] submits exactly one update, and the specification it submits
    carries the supplied description, or the empty string when none was
    supplied. *)
Theorem update_submits_description
    (module : Module) (result : Result) (matched : option string)
    (w : World S) (current : ImageSpec) (r1 : S) :
  api_get_image (update_target module matched) (remote w) = (current, r1) ->
  is_has_status current = true ->
  exists res w' uuid sent task,
    _update module result matched w = (Returned res, w')
    /\ trace w' =
         trace w ++ [EvGet (update_target module matched); EvUpdate uuid sent; EvPoll task]
    /\ is_description sent = Some (update_description module)
    /\ is_image_type sent = image_type (params module).
Proof.
  intros Hget Hstatus.
  unfold _update, update_target in *.
  unfold bind at 1. unfold get_image, call at 1. rewrite Hget, Hstatus. simpl.
  unfold update_description, bind, update_image, task_poll, call.
  destruct (image_description (params module)) as [d|] eqn:Hd; simpl;
    [destruct (String.eqb_spec d "") as [->|Hne]; simpl|];
    destruct (api_update_image _ _ r1) as [task r2]; simpl;
    destruct (api_task_poll task r2) as [[status|] r3]; simpl;
    try destruct (negb (status =? "")); simpl;
    do 5 eexists; (split; [reflexivity|]); simpl;
    rewrite <- !app_assoc; simpl; repeat split; reflexivity.
Qed.


(** *** The scan of the existing images *)

Lemma last_uuid_none (l : list Entity) :
  last (map (fun e => Some (ent_uuid e)) l) None = None -> l = [].
Proof.
  induction l as [|a l IH]; trivial.
  simpl. destruct l as [|b l]; [discriminate|].
  intros H. specialize (IH H). discriminate.
Qed.

Lemma matched_uuid_cons_other (name : string) (type description : option string)
    (e : Entity) (es : list Entity) :
  same_name name e = false ->
  matched_uuid name type description (e :: es) = matched_uuid name type description es.
Proof. intros H. unfold matched_uuid, named. simpl. now rewrite H. Qed.

Lemma matched_uuid_cons_hit (name : string) (type description : option string)
    (e : Entity) (es : list Entity) :
  same_name name e = true -> further_match type description e = true ->
  matched_uuid name type description (e :: es) = Some (ent_uuid e).
Proof. intros Hn Hf. unfold matched_uuid, named. simpl. now rewrite Hn; simpl; rewrite Hf. Qed.

Lemma matched_uuid_cons_miss (name : string) (type description : option string)
    (e : Entity) (es : list Entity) :
  same_name name e = true -> further_match type description e = false ->
  matched_uuid name type description (e :: es) =
    match matched_uuid name type description es with
    | Some u => Some u
    | None => Some (ent_uuid e)
    end.
Proof.
  intros Hn Hf. unfold matched_uuid, named. simpl. rewrite Hn; simpl; rewrite Hf.
  destruct (find _ (filter (same_name name) es)) as [x|]; trivial.
  destruct (filter (same_name name) es) as [|b l] eqn:Hl; trivial.
  change (match map (fun e0 => Some (ent_uuid e0)) (b :: l) with
          | [] => Some (ent_uuid e)
          | _ :: _ => last (map (fun e0 => Some (ent_uuid e0)) (b :: l)) None
          end) with (last (map (fun e0 => Some (ent_uuid e0)) (b :: l)) None).
  destruct (last (map (fun e0 => Some (ent_uuid e0)) (b :: l)) None) eqn:Hlast; trivial.
  apply last_uuid_none in Hlast. discriminate.
Qed.

(** The uuid the loop ends with, from any starting state. *)
Lemma match_entities_uuid (name : string) (type description : option string)
    (es : list Entity) :
  forall st u,
    snd (match_entities name type description es st u) =
      match matched_uuid name type description es with
      | Some x => Some x
      | None => u
      end.
Proof.
  induction es as [|e es IH]; intros st u; trivial.
  simpl. destruct (name =? ent_name e) eqn:Hn.
  - destruct (py_eq type (Some (ent_image_type e))) eqn:Ht;
      destruct (py_eq description (ent_description e)) eqn:Hd; simpl;
      try (rewrite matched_uuid_cons_hit; trivial;
           unfold further_match; rewrite Ht, Hd; reflexivity).
    rewrite IH. rewrite matched_uuid_cons_miss; trivial.
    + destruct (matched_uuid name type description es); reflexivity.
    + unfold further_match. now rewrite Ht, Hd.
  - rewrite IH. rewrite matched_uuid_cons_other; trivial.
Qed.

(** Once set, [match_name] stays; and it is set at every entity of the
    requested name. *)
Lemma match_entities_keeps_name (name : string) (type description : option string)
    (es : list Entity) :
  forall st u,
    match_name st = true ->
    match_name (fst (match_entities name type description es st u)) = true.
Proof.
  induction es as [|e es IH]; intros st u Hst; trivial.
  simpl. destruct (name =? ent_name e).
  - destruct (py_eq type (Some (ent_image_type e)));
      destruct (py_eq description (ent_description e)); simpl; trivial.
    apply IH. reflexivity.
  - apply IH. exact Hst.
Qed.


(** C7, as the code has it.  The match result carries the uuid of the first
    entity of the requested name that agrees with the request on the type or
    on the description; when no entity of that name agrees on either, the
    uuid of the last entity of that name; and no uuid when no entity has the
    name.  It is the first entity's uuid when that entity agrees on a field
    or is the only one of its name. *)
Theorem existing_state_uuid (module : Module) (w : World S) :
  let p := params module in
  let listing :=
    fst (api_list_entities "images" (set_list_payload (data p)) (remote w)) in
  (exists st,
     fst (get_existing_image_state module w) =
       Returned (st, matched_uuid (image_name p) (image_type p)
                       (image_description p) listing))
  /\ (named (image_name p) listing = [] ->
      matched_uuid (image_name p) (image_type p) (image_description p) listing = None)
  /\ (forall e rest,
        named (image_name p) listing = e :: rest ->
        further_match (image_type p) (image_description p) e = true \/ rest = [] ->
        matched_uuid (image_name p) (image_type p) (image_description p) listing
          = first_named_uuid (image_name p) listing).
Proof.
  intros p listing. split; [|split].
  - unfold get_existing_image_state, bind, list_entities, call, ret.
    fold p. fold listing.
    destruct (api_list_entities "images" (set_list_payload (data p)) (remote w))
      as [es r'] eqn:Hl.
    simpl in listing. subst listing.
    eexists. simpl.
    rewrite (surjective_pairing (match_entities _ _ _ es _ _)).
    rewrite match_entities_uuid.
    destruct (matched_uuid (image_name p) (image_type p) (image_description p) es);
      reflexivity.
  - intros Hnone. unfold matched_uuid. now rewrite Hnone.
  - intros e rest Hnamed Hcase.
    assert (Hfirst : first_named_uuid (image_name p) listing = Some (ent_uuid e)).
    { unfold first_named_uuid. unfold named in Hnamed.
      clear Hcase. induction listing as [|x l IH]; [discriminate|].
      simpl in *. destruct (same_name (image_name p) x).
      - now injection Hnamed as -> _.
      - apply IH. exact Hnamed. }
    rewrite Hfirst. unfold matched_uuid. rewrite Hnamed. simpl.
    destruct (further_match (image_type p) (image_description p) e) eqn:Hf; trivial.
    destruct Hcase as [Hcase | ->]; [discriminate|]. reflexivity.
Qed.

(** *** The decision of a [present] pass *)


(** [_create] from the point where the request is built and the existing
    state read. *)
Lemma create_after_state
    (module : Module) (result : Result) (w w1 w2 : World S)
    (image_spec : CreatePayload) (image_state : ImageState)
    (matched : option string) :
  create_image_spec urlparse_path module result w = (Returned image_spec, w1) ->
  get_existing_image_state module w1 = (Returned (image_state, matched), w2) ->
  _create urlparse_path module result w =
    match dispatch_state (items image_state) module result image_state matched with
    | Some leave => leave w2
    | None =>
        (created <- create_image image_spec ;;
         let '(task_uuid, image_uuid) := created in
         task_status <- task_poll task_uuid ;;
         match task_status with
         | Some status =>
             if negb (status =? "") then
               ret (set_msg (MsgStr status) (set_failed true result))
             else ret (set_changed true (set_image_uuid image_uuid result))
         | None => ret (set_changed true (set_image_uuid image_uuid result))
         end) w2
    end.
Proof.
  intros Hspec Hstate.
  unfold _create. unfold bind at 1. rewrite Hspec.
  unfold bind at 1. rewrite Hstate.
  destruct (dispatch_state _ _ _ _ _); reflexivity.
Qed.


(** *** Building the create request *)

(** With no usable [image_type], the builder runs the detection first and
    then goes on exactly as if the detected type had been given. *)
Lemma create_image_spec_detects_first
    (module : Module) (result : Result) (w : World S) :
  truthy (image_type (params module)) = false ->
  create_image_spec urlparse_path module result w =
    (t <- detect_image_type urlparse_path (image_url (params module)) ;;
     create_image_spec urlparse_path (set_image_type (Some t) module) result) w.
Proof.
  intros Hno.
  assert (Hdet : forall A (k : string -> M S A),
            (t <- match image_type (params module) with
                  | Some t => if t =? "" then
                                detect_image_type urlparse_path (image_url (params module))
                              else ret t
                  | None => detect_image_type urlparse_path (image_url (params module))
                  end ;; k t) w
            = (t <- detect_image_type urlparse_path (image_url (params module)) ;; k t) w).
  { intros A k. destruct (image_type (params module)) as [t|]; trivial.
    simpl in Hno. destruct (t =? ""); [trivial | discriminate]. }
  unfold create_image_spec at 1. rewrite Hdet.
  unfold bind at 1 3. unfold detect_image_type.
  destruct (url_extension urlparse_path (image_url (params module)))
    as [extension|]; [|reflexivity].
  destruct (extension =? ".iso"); [reflexivity|].
  destruct (extension =? ".qcow2"); reflexivity.
Qed.

(** With a type at hand and the URL as the only source, a request that gets
    built carries that type and that URL. *)
Lemma url_source_payload
    (module : Module) (result : Result) (w w' : World S)
    (t : string) (payload : CreatePayload) :
  image_type (params module) = Some t -> t <> "" ->
  truthy (vm_disk (params module)) = false ->
  truthy (vm_disk_uuid (params module)) = false ->
  truthy (image_url (params module)) = true ->
  create_image_spec urlparse_path module result w = (Returned payload, w') ->
  cp_image_type payload = t /\ cp_source_uri payload = image_url (params module).
Proof.
  intros Ht Hne Hvm Hid Hurl. unfold create_image_spec. cbv zeta.
  rewrite Ht. apply String.eqb_neq in Hne. rewrite Hne, Hvm.
  unfold bind, ret, list_entities, call, fail_json, raise.
  cbn [andb fst snd]. rewrite Hid, Hurl.
  destruct (clusters (params module)) as [[|c cs]|].
  - intros H. injection H as <- _. split; reflexivity.
  - destruct (api_list_entities "clusters" _ (remote w)) as [es r'].
    destruct (resolve_clusters (c :: cs) es _) as [d refs].
    destruct (negb (Nat.eqb (List.length d) (List.length (c :: cs)))).
    + destruct (remove_resolved (dict_keys d) (c :: cs)); discriminate.
    + intros H. injection H as <- _. split; reflexivity.
  - intros H. injection H as <- _. split; reflexivity.
Qed.

(** With a type at hand, the URL as the only source and no placement
    requested, the builder makes no call and returns the request with that
    type and that URL. *)
Lemma url_source_request
    (module : Module) (result : Result) (w : World S) (t : string) :
  image_type (params module) = Some t -> t <> "" ->
  url_is_source (params module) -> no_clusters (params module) ->
  create_image_spec urlparse_path module result w
    = (Returned (url_request (params module) t), w).
Proof.
  intros Ht Hne [Hvm [Hid Hurl]] Hcl. unfold create_image_spec. cbv zeta.
  rewrite Ht. apply String.eqb_neq in Hne. rewrite Hne, Hvm.
  unfold bind, ret. cbn [andb fst snd]. rewrite Hid, Hurl.
  unfold url_request.
  destruct Hcl as [-> | ->];
    destruct (image_checksum (params module));
    (destruct (image_description (params module)) as [d|];
     [destruct (String.eqb_spec d "") as [->|Hd];
      [|apply String.eqb_neq in Hd; simpl; rewrite Hd]|]);
    reflexivity.
Qed.

(** What the builder does once the detection has settled on [t]. *)
Lemma detected_type_is_used
    (module : Module) (result : Result) (w : World S) (t : string) :
  truthy (image_type (params module)) = false ->
  t <> "" ->
  detect_image_type urlparse_path (image_url (params module)) w = (Returned t, w) ->
  create_image_spec urlparse_path module result w =
    create_image_spec urlparse_path (set_image_type (Some t) module) result w
  /\ (url_is_source (params module) -> no_clusters (params module) ->
      create_image_spec urlparse_path module result w
        = (Returned (url_request (params module) t), w))
  /\ (url_is_source (params module) ->
      forall payload w',
        create_image_spec urlparse_path module result w = (Returned payload, w') ->
        cp_image_type payload = t
        /\ cp_source_uri payload = image_url (params module)).
Proof.
  intros Hno Hne Hdet.
  assert (Hsame : create_image_spec urlparse_path module result w =
            create_image_spec urlparse_path (set_image_type (Some t) module) result w).
  { rewrite (create_image_spec_detects_first module result w Hno).
    unfold bind at 1. now rewrite Hdet. }
  split; [exact Hsame | split].
  - intros Hurl Hcl. rewrite Hsame.
    apply (url_source_request (set_image_type (Some t) module) result w (t := t));
      trivial.
  - intros [Hvm [Hid Hurl]] payload w' Hbuilt. rewrite Hsame in Hbuilt.
    eapply url_source_payload with (t := t) in Hbuilt; trivial.
Qed.

(** C5. With no usable [image_type], the builder takes the type from the
    extension of the URL's path.  On [.iso] it goes on as with [ISO_IMAGE]:
    when the URL is the only source and no placement is requested it returns,
    without a call, the request whose type is [ISO_IMAGE] and whose source is
    the URL, and every request it builds from the URL has that type.  On
    [.qcow2] the same holds with [DISK_IMAGE].  On any other extension it
    leaves through [fail_json] with the "Unable to identify image_type"
    message before any client call, and so does [_create]. *)
Theorem autodetect_image_type (module : Module) (result : Result) (w : World S) :
  truthy (image_type (params module)) = false ->
  let p := params module in
  let extension := url_extension urlparse_path (image_url p) in
  let detected type :=
    create_image_spec urlparse_path module result w =
      create_image_spec urlparse_path (set_image_type (Some type) module) result w
    /\ (url_is_source p -> no_clusters p ->
        create_image_spec urlparse_path module result w
          = (Returned (url_request p type), w))
    /\ (url_is_source p ->
        forall payload w',
          create_image_spec urlparse_path module result w = (Returned payload, w') ->
          cp_image_type payload = type /\ cp_source_uri payload = image_url p) in
  (extension = Some ".iso" -> detected "ISO_IMAGE")
  /\ (extension = Some ".qcow2" -> detected "DISK_IMAGE")
  /\ (forall other,
        extension = Some other -> other <> ".iso" -> other <> ".qcow2" ->
        create_image_spec urlparse_path module result w = (FailJson unidentified, w)
        /\ _create urlparse_path module result w = (FailJson unidentified, w)).
Proof.
  intros Hno p extension detected.
  split; [|split].
  - intros Hiso. apply detected_type_is_used; trivial; [discriminate|].
    unfold detect_image_type. fold p. fold extension. now rewrite Hiso.
  - intros Hqcow. apply detected_type_is_used; trivial; [discriminate|].
    unfold detect_image_type. fold p. fold extension. now rewrite Hqcow.
  - intros other Hother Hn1 Hn2.
    assert (Hfail : create_image_spec urlparse_path module result w
                      = (FailJson unidentified, w)).
    { rewrite (create_image_spec_detects_first module result w Hno).
      unfold bind, detect_image_type. fold p. fold extension. rewrite Hother.
      apply String.eqb_neq in Hn1, Hn2. now rewrite Hn1, Hn2. }
    split; [exact Hfail|].
    unfold _create. unfold bind at 1. now rewrite Hfail.
Qed.

(** C8. With no usable [image_type] the builder runs the URL detection
    first, whatever the source is, and only then goes on to the source.  So
    with no URL a request that names a VM disk, by [vm_disk] or by
    [vm_disk_uuid], leaves through [fail_json] at the detection: no VM is
    looked up, no client call is made, the branch that sets [DISK_IMAGE] is
    not reached, and [_create] fails the same way. *)
Theorem vm_disk_without_type_fails_at_detection
    (module : Module) (result : Result) (w : World S) :
  truthy (image_type (params module)) = false ->
  create_image_spec urlparse_path module result w =
    (t <- detect_image_type urlparse_path (image_url (params module)) ;;
     create_image_spec urlparse_path (set_image_type (Some t) module) result) w
  /\ (image_url (params module) = None ->
      truthy (vm_disk (params module)) || truthy (vm_disk_uuid (params module)) = true ->
      create_image_spec urlparse_path module result w = (FailJson unidentified, w)
      /\ _create urlparse_path module result w = (FailJson unidentified, w)).
Proof.
  intros Hno.
  pose proof (create_image_spec_detects_first module result w Hno) as Hfirst.
  split; [exact Hfirst|].
  intros Hurl Hdisk.
  assert (Hfail : create_image_spec urlparse_path module result w
                    = (FailJson unidentified, w)).
  { rewrite Hfirst, Hurl. reflexivity. }
  split; [exact Hfail|].
  unfold _create. unfold bind at 1. rewrite Hfail. reflexivity.
Qed.

(** *** Cluster resolution *)

Lemma dict_keys_set {V} (k : string) (v : V) (d : dict V) :
  dict_keys (dict_set k v d) =
    if existsb (fun k' => k' =? k) (dict_keys d) then dict_keys d
    else dict_keys d ++ [k].
Proof.
  induction d as [|[k' v'] d IH]; simpl; trivial.
  destruct (String.eqb_spec k' k) as [->|Hne]; simpl; trivial.
  rewrite IH. destruct (existsb _ (dict_keys d)); reflexivity.
Qed.

Lemma dict_set_has_key {V} (k : string) (v : V) (d : dict V) :
  existsb (fun k' => k' =? k) (dict_keys (dict_set k v d)) = true.
Proof.
  rewrite dict_keys_set.
  destruct (existsb _ (dict_keys d)) eqn:Hin; trivial.
  rewrite existsb_app. simpl. rewrite String.eqb_refl. apply orb_true_iff. right. reflexivity.
Qed.

Lemma resolve_cluster_keys (c : string) (es : list Entity) :
  forall d pl,
    dict_keys (fst (resolve_cluster c es (d, pl))) =
      if resolved es c then
        if existsb (fun k' => k' =? c) (dict_keys d) then dict_keys d
        else dict_keys d ++ [c]
      else dict_keys d.
Proof.
  induction es as [|e es IH]; intros d pl; trivial.
  simpl. unfold resolved in *. simpl.
  destruct (ent_name e =? c); simpl.
  - rewrite IH. rewrite dict_set_has_key.
    rewrite dict_keys_set.
    destruct (existsb _ es); reflexivity.
  - apply IH.
Qed.

Lemma resolve_clusters_keys (es : list Entity) (cl : list string) :
  forall d pl,
    NoDup cl ->
    (forall c, In c cl -> existsb (fun k' => k' =? c) (dict_keys d) = false) ->
    dict_keys (fst (resolve_clusters cl es (d, pl))) =
      dict_keys d ++ filter (resolved es) cl.
Proof.
  induction cl as [|c cl IH]; intros d pl Hnd Hfresh; simpl.
  - now rewrite app_nil_r.
  - apply NoDup_cons_iff in Hnd. destruct Hnd as [Hnotin Hnd].
    pose proof (resolve_cluster_keys c es d pl) as Hkeys.
    destruct (resolve_cluster c es (d, pl)) as [d' pl']. simpl in Hkeys.
    rewrite (Hfresh c (or_introl eq_refl)) in Hkeys.
    rewrite IH; trivial.
    + rewrite Hkeys. destruct (resolved es c); trivial.
      now rewrite <- app_assoc.
    + intros c' Hin. rewrite Hkeys.
      destruct (resolved es c).
      * rewrite existsb_app, (Hfresh c' (or_intror Hin)). simpl.
        destruct (String.eqb_spec c c') as [->|Hne]; [contradiction | reflexivity].
      * apply Hfresh. now right.
Qed.

Lemma remove_resolved_skip (names : list string) :
  forall x l,
    ~ In x names ->
    remove_resolved names (x :: l) = option_map (cons x) (remove_resolved names l).
Proof.
  induction names as [|n names IH]; intros x l Hnotin; trivial.
  simpl. destruct (String.eqb_spec x n) as [->|Hne].
  - exfalso. apply Hnotin. now left.
  - destruct (list_remove n l) as [r|]; trivial.
    apply IH. intros Hin. apply Hnotin. now right.
Qed.

Lemma remove_resolved_filter (keep : string -> bool) (l : list string) :
  NoDup l ->
  remove_resolved (filter keep l) l = Some (filter (fun x => negb (keep x)) l).
Proof.
  induction l as [|x l IH]; intros Hnd; trivial.
  apply NoDup_cons_iff in Hnd. destruct Hnd as [Hnotin Hnd].
  simpl. destruct (keep x); simpl.
  - rewrite String.eqb_refl. now apply IH.
  - rewrite remove_resolved_skip.
    + now rewrite IH.
    + intros Hin. apply filter_In in Hin. now apply Hnotin.
Qed.

(** Where the cluster failure is right: for a list of distinct requested
    names of which some are not listed, the message names exactly those, in
    the order of the request, after the cluster listing and nothing else. *)
Lemma unresolved_clusters_reported
    (module : Module) (result : Result) (w : World S) (t : string)
    (cl : list string) (es : list Entity) (r' : S) :
  image_type (params module) = Some t -> t <> "" ->
  truthy (vm_disk (params module)) = false ->
  clusters (params module) = Some cl -> NoDup cl ->
  api_list_entities "clusters" (set_list_payload (data (params module))) (remote w)
    = (es, r') ->
  unresolved es cl <> [] ->
  create_image_spec urlparse_path module result w =
    (FailJson ("Could not find cluster(s) with name " ++ py_str_list (unresolved es cl)),
     {| remote := r';
        trace := trace w ++
          [EvList "clusters" (set_list_payload (data (params module)))] |}).
Proof.
  intros Ht Hne Hvm Hcl Hnd Hlist Hsome.
  unfold create_image_spec. cbv zeta.
  rewrite Ht, Hcl. apply String.eqb_neq in Hne. rewrite Hne, Hvm.
  destruct cl as [|c cs]; [now elim Hsome|].
  unfold bind, ret, list_entities, call, fail_json, raise.
  cbn [andb fst snd remote trace]. rewrite Hlist.
  match goal with
  | |- context [resolve_clusters (c :: cs) es ?acc] =>
      assert (Hinit : dict_keys (fst (resolve_clusters (c :: cs) es acc))
                = filter (resolved es) (c :: cs))
        by (rewrite resolve_clusters_keys; trivial);
      destruct (resolve_clusters (c :: cs) es acc) as [d refs]
  end.
  cbn [fst] in Hinit.
  assert (Hlen : Nat.eqb (List.length d) (List.length (c :: cs)) = false).
  { apply Nat.eqb_neq. intros Heq.
    unfold dict_keys in Hinit.
    rewrite <- (length_map fst d), Hinit in Heq.
    pose proof (filter_length (resolved es) (c :: cs)) as Hsplit.
    fold (unresolved es (c :: cs)) in Hsplit.
    rewrite Heq in Hsplit.
    destruct (unresolved es (c :: cs)) as [|x xs]; [now elim Hsome|].
    change (List.length (x :: xs)) with (Datatypes.S (List.length xs)) in Hsplit.
    lia. }
  rewrite Hlen. cbn [negb].
  rewrite Hinit, remove_resolved_filter; trivial.
Qed.

(** *** Running the pass again *)

(** Without an [image_type] parameter no entity matches in full. *)
Lemma absent_type_never_full_match (name : string) (description : option string)
    (es : list Entity) :
  forall st u,
    match_state st = false ->
    match_state (fst (match_entities name None description es st u)) = false.
Proof.
  induction es as [|e es IH]; intros st u Hst; trivial.
  simpl. destruct (name =? ent_name e).
  - destruct (py_eq description (ent_description e)); simpl; trivial.
    apply IH. exact Hst.
  - apply IH. exact Hst.
Qed.

Lemma match_entities_finds_name (name : string) (type description : option string)
    (es : list Entity) :
  forall st u,
    named name es <> [] ->
    match_name (fst (match_entities name type description es st u)) = true.
Proof.
  induction es as [|e es IH]; intros st u Hsome; [now elim Hsome|].
  simpl in *. unfold same_name in Hsome. destruct (name =? ent_name e).
  - destruct (py_eq type (Some (ent_image_type e)));
      destruct (py_eq description (ent_description e)); simpl; trivial.
    apply match_entities_keeps_name. reflexivity.
  - apply IH. exact Hsome.
Qed.

(** With the type left to the detection, a pass that finds an image of the
    requested name never takes the no-op path: it updates, whatever the
    remote side stores as type and description. *)
Lemma detected_type_rerun_updates
    (module : Module) (result : Result) (w w1 : World S)
    (image_spec : CreatePayload) (es : list Entity) (r2 : S) :
  image_type (params module) = None ->
  create_image_spec urlparse_path module result w = (Returned image_spec, w1) ->
  api_list_entities "images" (set_list_payload (data (params module))) (remote w1)
    = (es, r2) ->
  named (image_name (params module)) es <> [] ->
  _create urlparse_path module result w =
    _update module result
      (matched_uuid (image_name (params module)) None
         (image_description (params module)) es)
      {| remote := r2;
         trace := trace w1 ++
           [EvList "images" (set_list_payload (data (params module)))] |}.
Proof.
  intros Ht Hspec Hlist Hsome.
  assert (Hstate : get_existing_image_state module w1 =
            (Returned (match_entities (image_name (params module)) None
                         (image_description (params module)) es no_state None),
             {| remote := r2;
                trace := trace w1 ++
                  [EvList "images" (set_list_payload (data (params module)))] |})).
  { unfold get_existing_image_state, bind, list_entities, call, ret.
    rewrite Hlist, Ht. reflexivity. }
  rewrite (surjective_pairing (match_entities _ _ _ es _ _)) in Hstate.
  rewrite (@create_after_state _ _ _ _ _ _ _ _ Hspec Hstate).
  simpl. rewrite absent_type_never_full_match; trivial.
  rewrite match_entities_finds_name; trivial.
  rewrite match_entities_uuid. simpl.
  destruct (matched_uuid _ _ _ es); reflexivity.
Qed.

(** With type and description given, a pass that finds them on the first
    image of the requested name leaves with the result unchanged after the
    listing; it makes no mutating call. *)
Lemma full_match_rerun_is_noop
    (module : Module) (result : Result) (w w1 : World S)
    (image_spec : CreatePayload) (es rest : list Entity) (e : Entity) (r2 : S) :
  create_image_spec urlparse_path module result w = (Returned image_spec, w1) ->
  api_list_entities "images" (set_list_payload (data (params module))) (remote w1)
    = (es, r2) ->
  named (image_name (params module)) es = e :: rest ->
  image_type (params module) = Some (ent_image_type e) ->
  image_description (params module) = ent_description e ->
  exists image_state,
    _create urlparse_path module result w =
      (ExitJson (set_image_state image_state result),
       {| remote := r2;
          trace := trace w1 ++
            [EvList "images" (set_list_payload (data (params module)))] |})
    /\ changed (set_image_state image_state result) = changed result.
Proof.
  intros Hspec Hlist Hnamed Ht Hd.
  assert (Hfull : forall st u,
            match_state (fst (match_entities (image_name (params module))
                                (image_type (params module))
                                (image_description (params module)) es st u)) = true).
  { unfold named in Hnamed. clear Hlist.
    induction es as [|x es IH]; intros st u; [discriminate|].
    simpl in *. unfold same_name in Hnamed.
    destruct (image_name (params module) =? ent_name x).
    - injection Hnamed as -> _. rewrite Ht, Hd. simpl.
      rewrite String.eqb_refl.
      assert (Hrefl : py_eq (ent_description e) (ent_description e) = true).
      { destruct (ent_description e); simpl; trivial. apply String.eqb_refl. }
      rewrite Hrefl. reflexivity.
    - apply IH. exact Hnamed. }
  assert (Hstate : get_existing_image_state module w1 =
            (Returned (match_entities (image_name (params module))
                         (image_type (params module))
                         (image_description (params module)) es no_state None),
             {| remote := r2;
                trace := trace w1 ++
                  [EvList "images" (set_list_payload (data (params module)))] |})).
  { unfold get_existing_image_state, bind, list_entities, call, ret.
    rewrite Hlist. reflexivity. }
  rewrite (surjective_pairing (match_entities _ _ _ es _ _)) in Hstate.
  rewrite (@create_after_state _ _ _ _ _ _ _ _ Hspec Hstate).
  simpl. rewrite Hfull. simpl. eexists. split; reflexivity.
Qed.

End Properties.

(** ** The properties on the scenarios *)

Lemma delete_ambiguous_witness :
  image_name ubuntu20_absent <> ""
  /\ 2 <= List.length (named "ubuntu20" (sim_images two_ubuntu20))
  /\ _delete (run ubuntu20_absent) result_init (start two_ubuntu20) =
       (Returned
          {| changed := false; failed := true;
             msg := Some (MsgStr "Found multiple images with name ubuntu20");
             res_image_uuid := None; image_count := None; res_image_state := None |},
        {| remote := two_ubuntu20; trace := [list_images] |})
  /\ main simple_url_path (run ubuntu20_absent) (start two_ubuntu20) =
       (ExitJson
          {| changed := false; failed := true;
             msg := Some (MsgStr "Found multiple images with name ubuntu20");
             res_image_uuid := None; image_count := None; res_image_state := None |},
        {| remote := two_ubuntu20; trace := [EvNewClient; list_images] |}).
Proof.
  assert (Hname : image_name ubuntu20_absent <> "") by discriminate.
  assert (Hmany : 2 <= List.length (named "ubuntu20" (sim_images two_ubuntu20)))
    by (simpl; lia).
  pose (fails := @delete_ambiguous_fails_without_deleting SimRemote sim_client
                   simple_url_path (run ubuntu20_absent) result_init
                   (start two_ubuntu20) (sim_images two_ubuntu20) two_ubuntu20
                   Hname eq_refl Hmany).
  split; [exact Hname | split; [exact Hmany | split]].
  - exact (proj1 fails).
  - exact (proj2 (proj2 fails) eq_refl eq_refl).
Defined.

Lemma delete_task_failure_witness :
  _delete (run ubuntu20_absent) result_init (start stuck_ubuntu20) =
    (Returned
       {| changed := true; failed := true; msg := Some (MsgStr "image is in use");
          res_image_uuid := None; image_count := Some 1; res_image_state := None |},
     {| remote :=
          sim_with_images [image "other" "debian11" "ISO_IMAGE" None] 1 stuck_ubuntu20;
        trace := [list_images; EvDelete "u1"; EvPoll "task-0"] |})
  /\ main simple_url_path (run ubuntu20_absent) (start stuck_ubuntu20) =
       (ExitJson
          {| changed := true; failed := true; msg := Some (MsgStr "image is in use");
             res_image_uuid := None; image_count := Some 1; res_image_state := None |},
        {| remote :=
             sim_with_images [image "other" "debian11" "ISO_IMAGE" None] 1 stuck_ubuntu20;
           trace := [EvNewClient; list_images; EvDelete "u1"; EvPoll "task-0"] |}).
Proof.
  assert (Hname : image_name ubuntu20_absent <> "") by discriminate.
  assert (Htask : "task-0" <> "") by discriminate.
  assert (Hstatus : "image is in use" <> "") by discriminate.
  pose (fails := @delete_task_failure_keeps_changed SimRemote sim_client
                   simple_url_path (run ubuntu20_absent) result_init
                   (start stuck_ubuntu20) (sim_images stuck_ubuntu20)
                   (image "u1" "ubuntu20" "ISO_IMAGE" None)
                   "task-0" "image is in use" stuck_ubuntu20
                   (sim_with_images [image "other" "debian11" "ISO_IMAGE" None] 1
                      stuck_ubuntu20)
                   (sim_with_images [image "other" "debian11" "ISO_IMAGE" None] 1
                      stuck_ubuntu20)
                   Hname eq_refl eq_refl eq_refl Htask eq_refl Hstatus).
  split.
  - exact (proj1 fails).
  - exact (proj2 (proj2 (proj2 (proj2 fails))) eq_refl eq_refl).
Defined.

Lemma update_submits_description_witness :
  exists res w' uuid sent task,
    _update (run ubuntu20_typed) result_init (Some "u1") (start other_ubuntu20)
      = (Returned res, w')
    /\ trace w' = [] ++ [EvGet (Some "u1"); EvUpdate uuid sent; EvPoll task]
    /\ is_description sent = Some ""
    /\ is_image_type sent = Some "ISO_IMAGE".
Proof.
  apply (@update_submits_description SimRemote sim_client
           (run ubuntu20_typed) result_init (Some "u1") (start other_ubuntu20)
           {| is_has_status := true; is_spec_name := "ubuntu20";
              is_image_type := Some "DISK_IMAGE"; is_description := Some "old";
              is_metadata_uuid := "u1" |}
           other_ubuntu20);
    reflexivity.
Defined.

Lemma existing_state_uuid_witness :
  named "ubuntu20" (sim_images same_ubuntu20)
    = [image "u1" "ubuntu20" "ISO_IMAGE" (Some "Ubuntu 20.04")]
  /\ matched_uuid "ubuntu20" (Some "ISO_IMAGE") (Some "Ubuntu 20.04")
       (sim_images same_ubuntu20)
     = first_named_uuid "ubuntu20" (sim_images same_ubuntu20).
Proof.
  split; [reflexivity|].
  exact (proj2 (proj2 (@existing_state_uuid SimRemote sim_client
                         (run ubuntu20_described) (start same_ubuntu20)))
           (image "u1" "ubuntu20" "ISO_IMAGE" (Some "Ubuntu 20.04")) []
           eq_refl (or_intror eq_refl)).
Defined.


Lemma autodetect_image_type_witness :
  truthy (image_type ubuntu20) = false
  /\ url_extension simple_url_path (image_url ubuntu20) = Some ".iso"
  /\ create_image_spec simple_url_path (run ubuntu20) result_init (start empty_remote)
     = (Returned ubuntu20_request, start empty_remote)
  /\ cp_image_type ubuntu20_request = "ISO_IMAGE"
  /\ url_extension simple_url_path (image_url debian11) = Some ".qcow2"
  /\ create_image_spec simple_url_path (run debian11) result_init (start empty_remote)
     = (Returned (url_request debian11 "DISK_IMAGE"), start empty_remote)
  /\ url_extension simple_url_path (image_url fedora_raw) = Some ".raw"
  /\ _create simple_url_path (run fedora_raw) result_init (start empty_remote)
     = (FailJson unidentified, start empty_remote).
Proof.
  pose (iso := @autodetect_image_type SimRemote sim_client simple_url_path
                 (run ubuntu20) result_init (start empty_remote) eq_refl).
  pose (qcow := @autodetect_image_type SimRemote sim_client simple_url_path
                  (run debian11) result_init (start empty_remote) eq_refl).
  pose (raw := @autodetect_image_type SimRemote sim_client simple_url_path
                 (run fedora_raw) result_init (start empty_remote) eq_refl).
  assert (Hsource : forall name url,
            url <> "" ->
            url_is_source (with_url url (params_named name "present"))).
  { intros name url Hurl. repeat split. simpl.
    apply String.eqb_neq in Hurl. now rewrite Hurl. }
  assert (Hplain : forall name url,
            no_clusters (with_url url (params_named name "present")))
    by (intros; left; reflexivity).
  split; [reflexivity|].
  split; [reflexivity|].
  split.
  { refine (proj1 (proj2 (proj1 iso eq_refl)) (Hsource _ _ _) (Hplain _ _)).
    discriminate. }
  split; [reflexivity|].
  split; [reflexivity|].
  split.
  { refine (proj1 (proj2 (proj1 (proj2 qcow) eq_refl)) (Hsource _ _ _) (Hplain _ _)).
    discriminate. }
  split; [reflexivity|].
  refine (proj2 (proj2 (proj2 raw) ".raw" eq_refl _ _)); discriminate.
Defined.

Lemma vm_disk_without_type_witness :
  truthy (image_type golden_disk) = false
  /\ image_url golden_disk = None
  /\ truthy (vm_disk golden_disk) = true
  /\ create_image_spec simple_url_path (run golden_disk) result_init (start empty_remote)
     = (FailJson unidentified, start empty_remote)
  /\ _create simple_url_path (run golden_disk) result_init (start empty_remote)
     = (FailJson unidentified, start empty_remote).
Proof.
  pose (fails := proj2 (@vm_disk_without_type_fails_at_detection SimRemote sim_client
                          simple_url_path (run golden_disk) result_init
                          (start empty_remote) eq_refl)
                   eq_refl eq_refl).
  split; [reflexivity|].
  split; [reflexivity|].
  split; [reflexivity|].
  split; [exact (proj1 fails) | exact (proj2 fails)].
Defined.


(** C7, counterexample.  [two_ubuntu20] lists two images named
    [ubuntu20], [u1] then [u2], neither agreeing with the request on the type
    or on the description: the match result carries [u2], the last of them,
    and not [u1], the first. *)
Lemma last_named_uuid_reported :
  fst (get_existing_image_state (run ubuntu20_described) (start two_ubuntu20))
    = Returned (name_only, Some "u2")
  /\ first_named_uuid "ubuntu20" (sim_images two_ubuntu20) = Some "u1"
  /\ Some "u2" <> first_named_uuid "ubuntu20" (sim_images two_ubuntu20).
Proof. repeat split; try (vm_compute; reflexivity). discriminate. Qed.

(** C3, the code at the failing input.  A first [present] pass on
    [ubuntu20], whose type is left to the detection, creates the image as
    [ISO_IMAGE].  The same pass run again finds the image, compares the
    absent [image_type] parameter with the stored type, and updates the
    image, sending no type at all; it reports [changed].  The same happens
    when the remote side keeps the empty description as such. *)
Lemma rerun_after_detected_create_updates :
  fst (main simple_url_path (run ubuntu20) (start empty_remote))
    = ExitJson (set_changed true (set_image_uuid "image-0" result_init))
  /\ sim_images after_first_pass = [image "image-0" "ubuntu20" "ISO_IMAGE" None]
  /\ fst (main simple_url_path (run ubuntu20) (start after_first_pass))
     = ExitJson (set_changed true result_init)
  /\ filter is_mutating
       (trace (snd (main simple_url_path (run ubuntu20) (start after_first_pass))))
     = [EvUpdate (Some "image-0")
          {| is_has_status := false; is_spec_name := "ubuntu20";
             is_image_type := None; is_description := Some "";
             is_metadata_uuid := "image-0" |}]
  /\ fst (main simple_url_path (run ubuntu20) (start after_first_pass_verbatim))
     = ExitJson (set_changed true result_init)
  /\ filter is_mutating
       (trace (snd (main simple_url_path (run ubuntu20)
                      (start after_first_pass_verbatim))))
     = [EvUpdate (Some "image-0")
          {| is_has_status := false; is_spec_name := "ubuntu20";
             is_image_type := None; is_description := Some "";
             is_metadata_uuid := "image-0" |}].
Proof. repeat split; vm_compute; reflexivity. Qed.

(** C4, the code at the failing input.  Of the requested clusters [A], [A]
    and [B] only [A] exists, so [B] is the one unresolved name; the message
    names [A] as well. *)
Lemma duplicate_cluster_reported_missing :
  unresolved (sim_clusters cluster_A_only) ["A"; "A"; "B"] = ["B"]
  /\ resolved (sim_clusters cluster_A_only) "A" = true
  /\ create_image_spec simple_url_path
       (run (with_clusters ["A"; "A"; "B"] ubuntu20_typed)) result_init
       (start cluster_A_only)
     = (FailJson "Could not find cluster(s) with name ['A', 'B']",
        {| remote := cluster_A_only; trace := [list_clusters] |}).
Proof. repeat split; vm_compute; reflexivity. Qed.

(** With a URL next to [vm_disk_uuid] the detection has an extension to look
    at and the disk branch is reached. *)
Example vm_disk_uuid_with_url :
  create_image_spec simple_url_path
    (run (with_vm_disk_uuid "disk-1" ubuntu20)) result_init (start empty_remote)
  = (Returned
       {| cp_spec_name := "ubuntu20"; cp_image_type := "DISK_IMAGE";
          cp_initial_placement_ref_list := None; cp_allow_insecure_connection := true;
          cp_data_source_reference := Some "disk-1"; cp_source_uri := None;
          cp_checksum := None; cp_description := ""; cp_api_version := "3.1.0";
          cp_metadata_kind := "image"; cp_metadata_name := "ubuntu20" |},
     start empty_remote).
Proof. reflexivity. Qed.

(** ** Small runs *)

Example splitext_iso : splitext "/iso/ubuntu20.iso" = ("/iso/ubuntu20", ".iso").
Proof. reflexivity. Qed.

Example splitext_leading_dot : splitext "/images/.bashrc" = ("/images/.bashrc", "").
Proof. reflexivity. Qed.

Example splitext_dot_in_directory : splitext "/ima.ges/ubuntu20" = ("/ima.ges/ubuntu20", "").
Proof. reflexivity. Qed.

Example splitext_last_dot : splitext "disk.tar.qcow2" = ("disk.tar", ".qcow2").
Proof. reflexivity. Qed.

Example list_remove_first : list_remove "A" ["B"; "A"; "A"] = Some ["B"; "A"].
Proof. reflexivity. Qed.

Example py_str_list_two : py_str_list ["A"; "B"] = "['A', 'B']".
Proof. reflexivity. Qed.

Example first_pass_creates :
  main simple_url_path (run ubuntu20) (start empty_remote)
  = (ExitJson (set_changed true (set_image_uuid "image-0" result_init)),
     {| remote := after_first_pass;
        trace := [EvNewClient; list_images; EvCreate ubuntu20_request; EvPoll "task-0"] |}).
Proof. reflexivity. Qed.

Example second_pass_with_type_and_description_is_noop :
  main simple_url_path (run ubuntu20_described) (start same_ubuntu20)
  = (ExitJson (set_image_state full_match result_init),
     {| remote := same_ubuntu20; trace := [EvNewClient; list_images] |}).
Proof. reflexivity. Qed.

Example absent_without_image :
  main simple_url_path (run ubuntu20_absent) (start empty_remote)
  = (ExitJson result_init, {| remote := empty_remote; trace := [EvNewClient; list_images] |}).
Proof. reflexivity. Qed.

Example missing_cluster :
  create_image_spec simple_url_path (run (with_clusters ["A"; "B"] ubuntu20_typed))
    result_init (start cluster_A_only)
  = (FailJson "Could not find cluster(s) with name ['B']",
     {| remote := cluster_A_only; trace := [list_clusters] |}).
Proof. reflexivity. Qed.

(** ** Further properties of the module *)

Section Coverage.

Context {S : Type} {client : ApiClient S}.
Variable urlparse_path : string -> option string.

(** *** Which calls a computation can make *)

Lemma issues_ret {A} (p : Event -> bool) (n : nat) (a : A) :
  issues_at_most p n (ret (S := S) a).
Proof. intros w. exists []. simpl. rewrite app_nil_r. split; [reflexivity | lia]. Qed.

Lemma issues_exit_json {A} (p : Event -> bool) (n : nat) (r : Result) :
  issues_at_most p n (exit_json (S := S) (A := A) r).
Proof. intros w. exists []. simpl. rewrite app_nil_r. split; [reflexivity | lia]. Qed.

Lemma issues_fail_json {A} (p : Event -> bool) (n : nat) (m : string) :
  issues_at_most p n (fail_json (S := S) (A := A) m).
Proof. intros w. exists []. simpl. rewrite app_nil_r. split; [reflexivity | lia]. Qed.

Lemma issues_raise {A} (p : Event -> bool) (n : nat) (e : PyError) :
  issues_at_most p n (raise (S := S) (A := A) e).
Proof. intros w. exists []. simpl. rewrite app_nil_r. split; [reflexivity | lia]. Qed.

Lemma issues_call {A} (p : Event -> bool) (n : nat) (ev : Event) (f : S -> A * S) :
  (if p ev then 1 else 0) <= n -> issues_at_most p n (call ev f).
Proof.
  intros Hn w. exists [ev]. unfold call.
  destruct (f (remote w)) as [a r]. simpl. split; trivial.
  destruct (p ev); simpl; lia.
Qed.

Lemma issues_bind {A B} (p : Event -> bool) (n m : nat) (c : M S A) (k : A -> M S B) :
  issues_at_most p n c -> (forall a, issues_at_most p m (k a)) ->
  issues_at_most p (n + m) (bind c k).
Proof.
  intros Hc Hk w. destruct (Hc w) as [evs [Ht Hn]].
  unfold bind. destruct (c w) as [[a | r | msg | e] w1]; simpl in *;
    try (exists evs; split; [exact Ht | lia]).
  destruct (Hk a w1) as [evs' [Ht' Hm]].
  exists (evs ++ evs'). split.
  - rewrite Ht', Ht. now rewrite app_assoc.
  - rewrite filter_app, length_app. lia.
Qed.

Lemma issues_bind_ret {A B} (p : Event -> bool) (n : nat) (a : A) (k : A -> M S B) :
  issues_at_most p n (k a) -> issues_at_most p n (bind (ret a) k).
Proof. intros Hk w. exact (Hk w). Qed.

Lemma issues_bind_exit_json {A B} (p : Event -> bool) (n : nat) (r : Result)
    (k : A -> M S B) :
  issues_at_most p n (bind (exit_json r) k).
Proof. intros w. exists []. simpl. rewrite app_nil_r. split; [reflexivity | lia]. Qed.

Lemma issues_new_client (p : Event -> bool) (n : nat) (module : Module) :
  p EvNewClient = false -> issues_at_most p n (NutanixApiClient (S := S) module).
Proof.
  intros Hp w. exists [EvNewClient]. simpl. rewrite Hp. split; [reflexivity | simpl; lia].
Qed.

Ltac issue_step :=
  match goal with
  | |- issues_at_most _ _ (ret _) => apply issues_ret
  | |- issues_at_most _ _ (exit_json _) => apply issues_exit_json
  | |- issues_at_most _ _ (fail_json _) => apply issues_fail_json
  | |- issues_at_most _ _ (raise _) => apply issues_raise
  | |- issues_at_most _ _ (list_entities _ _) => apply issues_call; simpl; lia
  | |- issues_at_most _ _ (get_image _) => apply issues_call; simpl; lia
  | |- issues_at_most _ _ (task_poll _) => apply issues_call; simpl; lia
  | |- issues_at_most _ _ (create_image _) => apply issues_call; simpl; lia
  | |- issues_at_most _ _ (update_image _ _) => apply issues_call; simpl; lia
  | |- issues_at_most _ _ (delete_image _) => apply issues_call; simpl; lia
  | |- issues_at_most _ _ (NutanixApiClient _) => apply issues_new_client; reflexivity
  | |- issues_at_most _ _ (match ?x with _ => _ end) => destruct x
  | |- issues_at_most _ _ (if ?b then _ else _) => destruct b
  end.

Ltac quiet :=
  repeat first
    [ issue_step
    | match goal with
      | |- issues_at_most _ 0 (bind _ _) =>
          apply (issues_bind (n := 0) (m := 0)); [|intro]
      end ].

(** After a call that may count, the rest is quiet. *)
Ltac one_then_quiet :=
  match goal with
  | |- issues_at_most _ 1 (bind _ _) =>
      apply (issues_bind (n := 1) (m := 0)); [|intro]
  end; quiet.

Lemma detect_image_type_is_quiet (p : Event -> bool) (image_url : option string) :
  issues_at_most p 0 (detect_image_type (S := S) urlparse_path image_url).
Proof. unfold detect_image_type. quiet. Qed.

Lemma create_image_spec_only_lists (module : Module) (result : Result) :
  issues_at_most is_mutating 0 (create_image_spec urlparse_path module result).
Proof.
  unfold create_image_spec. cbv zeta.
  apply (issues_bind (n := 0) (m := 0)).
  - destruct (image_type (params module)) as [t|];
      [destruct (t =? "")|]; try apply issues_ret;
      apply detect_image_type_is_quiet.
  - intros t. quiet.
Qed.

Lemma get_existing_image_state_only_lists (module : Module) :
  issues_at_most is_mutating 0 (get_existing_image_state module).
Proof. unfold get_existing_image_state. quiet. Qed.

Lemma update_mutates_once (module : Module) (result : Result) (matched : option string) :
  issues_at_most is_mutating 1 (_update module result matched).
Proof.
  unfold _update. cbv zeta.
  apply (issues_bind (n := 0) (m := 1)); [quiet|]. intros image_spec.
  destruct (negb (is_has_status image_spec)); [quiet|].
  destruct (truthy (image_description (params module))); one_then_quiet.
Qed.

Lemma create_mutates_once (module : Module) (result : Result) :
  issues_at_most is_mutating 1 (_create urlparse_path module result).
Proof.
  unfold _create.
  apply (issues_bind (n := 0) (m := 1)); [apply create_image_spec_only_lists|].
  intros image_spec.
  apply (issues_bind (n := 0) (m := 1)); [apply get_existing_image_state_only_lists|].
  intros [image_state matched]. simpl.
  destruct (match_state image_state); [quiet|]. simpl.
  destruct (match_name image_state); [apply update_mutates_once|]. simpl.
  destruct (match_type image_state); [apply update_mutates_once|]. simpl.
  destruct (match_description image_state); [apply update_mutates_once|]. simpl.
  apply (issues_bind (n := 1) (m := 0)); [quiet|].
  intros [task_uuid image_uuid]. quiet.
Qed.

Lemma poll_deletions_is_quiet (tasks : list string) :
  forall result msgs, issues_at_most is_mutating 0 (poll_deletions tasks result msgs).
Proof.
  induction tasks as [|t tasks IH]; intros result msgs; simpl; [quiet|].
  apply (issues_bind (n := 0) (m := 0)); [quiet|].
  intros [status|]; [destruct (negb (status =? ""))|]; apply IH.
Qed.

Lemma delete_mutates_once (module : Module) (result : Result) :
  issues_at_most is_mutating 1 (_delete module result).
Proof.
  unfold _delete. cbv zeta.
  destruct (negb (image_name (params module) =? "")); [|quiet].
  apply (issues_bind (n := 0) (m := 1)); [quiet|]. intros es.
  destruct (scan_for_delete _ es None [] 0) as [|u l c]; [quiet|].
  destruct (Nat.eqb c 0); [quiet|].
  destruct l; [quiet|].
  destruct (Nat.eqb c 1); [|simpl; quiet].
  destruct u as [u|]; [|quiet].
  apply (issues_bind (n := 1) (m := 0)); [quiet|].
  intros [task|]; simpl; quiet.
Qed.

Lemma update_never_deletes (module : Module) (result : Result) (matched : option string) :
  issues_at_most is_delete 0 (_update module result matched).
Proof.
  unfold _update. cbv zeta. quiet.
Qed.

Lemma create_never_deletes (module : Module) (result : Result) :
  issues_at_most is_delete 0 (_create urlparse_path module result).
Proof.
  unfold _create.
  apply (issues_bind (n := 0) (m := 0)).
  { unfold create_image_spec. cbv zeta.
    apply (issues_bind (n := 0) (m := 0)).
    - destruct (image_type (params module)) as [t|];
        [destruct (t =? "")|]; try apply issues_ret;
        apply detect_image_type_is_quiet.
    - intros t. quiet. }
  intros image_spec.
  apply (issues_bind (n := 0) (m := 0)); [unfold get_existing_image_state; quiet|].
  intros [image_state matched]. simpl.
  destruct (match_state image_state); [quiet|]. simpl.
  destruct (match_name image_state); [apply update_never_deletes|]. simpl.
  destruct (match_type image_state); [apply update_never_deletes|]. simpl.
  destruct (match_description image_state); [apply update_never_deletes|]. simpl.
  quiet.
Qed.

Lemma poll_deletions_never_creates (tasks : list string) :
  forall result msgs,
    issues_at_most (fun e => is_create e || is_update e) 0
      (poll_deletions tasks result msgs).
Proof.
  induction tasks as [|t tasks IH]; intros result msgs; simpl; [quiet|].
  apply (issues_bind (n := 0) (m := 0)); [quiet|].
  intros [status|]; [destruct (negb (status =? ""))|]; apply IH.
Qed.

Lemma delete_never_creates (module : Module) (result : Result) :
  issues_at_most (fun e => is_create e || is_update e) 0 (_delete module result).
Proof.
  unfold _delete. cbv zeta.
  destruct (negb (image_name (params module) =? "")); [|quiet].
  apply (issues_bind (n := 0) (m := 0)); [quiet|]. intros es.
  destruct (scan_for_delete _ es None [] 0) as [|u l c]; [quiet|].
  destruct (Nat.eqb c 0); [quiet|].
  destruct l; [quiet|].
  destruct (Nat.eqb c 1); [|simpl; quiet].
  destruct u as [u|]; [|quiet].
  apply (issues_bind (n := 0) (m := 0)); [quiet|].
  intros [task|]; simpl; quiet.
Qed.

(** X1. Whatever the parameters, the remote side and the way the pass ends,
    one run of [main] makes at most one mutating call (create, update or
    delete); everything else it sends is a listing, a read or a poll. *)
Theorem pass_mutates_at_most_once (module : Module) :
  issues_at_most is_mutating 1 (main urlparse_path module).
Proof.
  unfold main, generate_argument_spec.
  apply (issues_bind (n := 0) (m := 1)); [quiet|]. intros arg_spec.
  apply (issues_bind (n := 0) (m := 1)); [quiet|]. intros api_client.
  apply (issues_bind (n := 1) (m := 0)); [|intros result; quiet].
  destruct (state (params arg_spec) =? "present"); [apply create_mutates_once|].
  destruct (state (params arg_spec) =? "absent"); [apply delete_mutates_once|].
  quiet.
Qed.

(** X2. The kind of the mutating call follows [state]: a pass whose [state]
    is not [absent] never issues a delete call, and a pass whose [state] is
    not [present] never issues a create or an update call. *)
Theorem pass_mutation_follows_state (module : Module) :
  (state (params module) <> "absent" ->
   issues_at_most is_delete 0 (main urlparse_path module))
  /\ (state (params module) <> "present" ->
      issues_at_most (fun e => is_create e || is_update e) 0
        (main urlparse_path module)).
Proof.
  split; intros Hstate; apply String.eqb_neq in Hstate;
    unfold main, generate_argument_spec;
    (destruct (check_mode module); [apply issues_bind_exit_json|]);
    apply issues_bind_ret;
    (apply (issues_bind (n := 0) (m := 0)); [quiet|]); intros api_client;
    (apply (issues_bind (n := 0) (m := 0)); [|intros result; quiet]).
  - destruct (state (params module) =? "present"); [apply create_never_deletes|].
    rewrite Hstate. quiet.
  - rewrite Hstate.
    destruct (state (params module) =? "absent"); [apply delete_never_creates|].
    quiet.
Qed.

(** X3. Building the create request never mutates anything: however it
    ends (request, [fail_json] or exception), [create_image_spec] has sent at
    most two calls, and both are listings. *)
Theorem builder_only_lists (module : Module) (result : Result) :
  issues_at_most (fun e => negb (is_listing e)) 0
    (create_image_spec urlparse_path module result)
  /\ issues_at_most is_listing 2 (create_image_spec urlparse_path module result).
Proof.
  split.
  - unfold create_image_spec. cbv zeta.
    apply (issues_bind (n := 0) (m := 0)).
    + destruct (image_type (params module)) as [t|];
        [destruct (t =? "")|]; try apply issues_ret;
        apply detect_image_type_is_quiet.
    + intros t. quiet.
  - unfold create_image_spec. cbv zeta.
    apply (issues_bind (n := 0) (m := 2)).
    + destruct (image_type (params module)) as [t|];
        [destruct (t =? "")|]; try apply issues_ret;
        apply detect_image_type_is_quiet.
    + intros t. apply (issues_bind (n := 1) (m := 1)).
      * destruct (truthy (vm_disk (params module)) &&
                  negb (truthy (vm_disk_uuid (params module)))); [|quiet].
        apply (issues_bind (n := 1) (m := 0)); [quiet | intro; quiet].
      * intros vm_disk_uuid. apply (issues_bind (n := 1) (m := 0)); [|intro; quiet].
        destruct (clusters (params module)) as [[|c cs]|]; try quiet.
        apply (issues_bind (n := 1) (m := 0)); [quiet | intro; quiet].
Qed.

(** *** Deletion, the remaining cases *)

Lemma main_runs_create (module : Module) (w : World S) :
  check_mode module = false ->
  state (params module) = "present" ->
  main urlparse_path module w =
    (result <- _create urlparse_path module result_init ;; exit_json result)
      {| remote := remote w; trace := trace w ++ [EvNewClient] |}.
Proof.
  intros Hcheck Hstate.
  unfold main, generate_argument_spec. rewrite Hcheck.
  unfold bind at 1. unfold ret at 1.
  unfold bind at 1. unfold NutanixApiClient at 1.
  rewrite Hstate. reflexivity.
Qed.

Lemma delete_nothing
    (module : Module) (result : Result) (w : World S) (es : list Entity) (r' : S) :
  image_name (params module) <> "" ->
  api_list_entities "images" (set_list_payload (data (params module))) (remote w)
    = (es, r') ->
  named (image_name (params module)) es = [] ->
  _delete module result w =
    (Returned result, {| remote := r'; trace := trace w ++ [images_listing module] |}).
Proof.
  intros Hname Hlist Hnone.
  unfold _delete. rewrite (nonempty_eqb Hname).
  unfold bind, list_entities, call. rewrite Hlist.
  rewrite scan_for_delete_none; trivial. lia.
Qed.

(** X4. With a requested name and no listed image of that name, [_delete]
    returns the result as it got it after the one listing: nothing is
    deleted and nothing is marked failed or changed; an [absent] pass exits
    with the seed result, [changed] false. *)
Theorem delete_absent_image_is_noop
    (module : Module) (result : Result) (w : World S) (es : list Entity) (r' : S) :
  image_name (params module) <> "" ->
  api_list_entities "images" (set_list_payload (data (params module))) (remote w)
    = (es, r') ->
  named (image_name (params module)) es = [] ->
  _delete module result w =
    (Returned result, {| remote := r'; trace := trace w ++ [images_listing module] |})
  /\ (check_mode module = false -> state (params module) = "absent" ->
      main urlparse_path module w =
        (ExitJson result_init,
         {| remote := r';
            trace := trace w ++ [EvNewClient; images_listing module] |})).
Proof.
  intros Hname Hlist Hnone. split.
  - eapply delete_nothing; eassumption.
  - intros Hcheck Hstate. rewrite main_absent; trivial.
    unfold bind. rewrite delete_nothing with (es := es) (r' := r'); trivial.
    simpl. rewrite <- app_assoc. reflexivity.
Qed.

Lemma delete_single_polled
    (module : Module) (result : Result) (w : World S)
    (es : list Entity) (e : Entity) (task : string) (status : option string)
    (r1 r2 r3 : S) :
  image_name (params module) <> "" ->
  api_list_entities "images" (set_list_payload (data (params module))) (remote w)
    = (es, r1) ->
  named (image_name (params module)) es = [e] ->
  api_delete_image (ent_uuid e) r1 = (Some task, r2) ->
  task <> "" ->
  api_task_poll task r2 = (status, r3) ->
  failure_of status = None ->
  _delete module result w =
    (Returned (set_changed true (set_image_count 1 result)),
     {| remote := r3;
        trace := trace w ++
          [images_listing module; EvDelete (ent_uuid e); EvPoll task] |}).
Proof.
  intros Hname Hlist Hone Hdel Htask Hpoll Hclean.
  unfold _delete. rewrite (nonempty_eqb Hname).
  unfold bind at 1. unfold list_entities, call at 1. rewrite Hlist.
  rewrite scan_for_delete_single with (e := e) by exact Hone. simpl.
  unfold bind at 1. unfold delete_image, call at 1. simpl. rewrite Hdel.
  rewrite (nonempty_eqb Htask).
  unfold bind, task_poll, call. simpl. rewrite Hpoll.
  unfold images_listing. rewrite <- !app_assoc. simpl.
  destruct status as [s|]; simpl in *; trivial.
  destruct (s =? ""); [reflexivity | discriminate].
Qed.

(** X5. With a requested name, exactly one listed image of that name, a
    delete call that hands back a task and a poll that reports no failure
    (no status, or an empty one), [_delete] deletes that image, polls the
    task once and returns with [changed] true and [image_count] 1, [failed]
    and [msg] untouched; an [absent] pass exits with that result. *)
Theorem delete_single_image_succeeds
    (module : Module) (result : Result) (w : World S)
    (es : list Entity) (e : Entity) (task : string) (status : option string)
    (r1 r2 r3 : S) :
  image_name (params module) <> "" ->
  api_list_entities "images" (set_list_payload (data (params module))) (remote w)
    = (es, r1) ->
  named (image_name (params module)) es = [e] ->
  api_delete_image (ent_uuid e) r1 = (Some task, r2) ->
  task <> "" ->
  api_task_poll task r2 = (status, r3) ->
  failure_of status = None ->
  let calls := [images_listing module; EvDelete (ent_uuid e); EvPoll task] in
  _delete module result w =
    (Returned (set_changed true (set_image_count 1 result)),
     {| remote := r3; trace := trace w ++ calls |})
  /\ failed (set_changed true (set_image_count 1 result)) = failed result
  /\ msg (set_changed true (set_image_count 1 result)) = msg result
  /\ (check_mode module = false -> state (params module) = "absent" ->
      main urlparse_path module w =
        (ExitJson (set_changed true (set_image_count 1 result_init)),
         {| remote := r3; trace := trace w ++ EvNewClient :: calls |})).
Proof.
  intros Hname Hlist Hone Hdel Htask Hpoll Hclean calls.
  split; [|split; [reflexivity | split; [reflexivity|]]].
  - eapply delete_single_polled; eassumption.
  - intros Hcheck Hstate. rewrite main_absent; trivial.
    unfold bind.
    rewrite delete_single_polled
      with (es := es) (e := e) (task := task) (status := status)
           (r1 := r1) (r2 := r2) (r3 := r3); trivial.
    simpl. rewrite <- app_assoc. reflexivity.
Qed.

(** X6. When the delete call hands back no task (nothing, or an empty
    identifier), [_delete] polls nothing: it returns with [changed] true and
    [image_count] 1 right after the delete call. *)
Theorem delete_without_task_is_not_polled
    (module : Module) (result : Result) (w : World S)
    (es : list Entity) (e : Entity) (task : option string) (r1 r2 : S) :
  image_name (params module) <> "" ->
  api_list_entities "images" (set_list_payload (data (params module))) (remote w)
    = (es, r1) ->
  named (image_name (params module)) es = [e] ->
  api_delete_image (ent_uuid e) r1 = (task, r2) ->
  truthy task = false ->
  _delete module result w =
    (Returned (set_changed true (set_image_count 1 result)),
     {| remote := r2;
        trace := trace w ++ [images_listing module; EvDelete (ent_uuid e)] |}).
Proof.
  intros Hname Hlist Hone Hdel Htask.
  unfold _delete. rewrite (nonempty_eqb Hname).
  unfold bind at 1. unfold list_entities, call at 1. rewrite Hlist.
  rewrite scan_for_delete_single with (e := e) by exact Hone. simpl.
  unfold bind at 1. unfold delete_image, call at 1. simpl. rewrite Hdel.
  unfold images_listing. rewrite <- !app_assoc. simpl.
  destruct task as [t|]; simpl in *; trivial.
  destruct (t =? ""); [reflexivity | discriminate].
Qed.

(** X7. With an empty [image_name], [_delete] makes no call at all and
    returns the result marked failed, without a message; an [absent] pass
    exits with that result after building the client. *)
Theorem delete_without_name_fails
    (module : Module) (result : Result) (w : World S) :
  image_name (params module) = "" ->
  _delete module result w = (Returned (set_failed true result), w)
  /\ msg (set_failed true result) = msg result
  /\ (check_mode module = false -> state (params module) = "absent" ->
      main urlparse_path module w =
        (ExitJson (set_failed true result_init),
         {| remote := remote w; trace := trace w ++ [EvNewClient] |})).
Proof.
  intros Hname.
  assert (Hdel : forall r w0, _delete module r w0 = (Returned (set_failed true r), w0)).
  { intros r w0. unfold _delete. rewrite Hname. reflexivity. }
  split; [apply Hdel | split; [reflexivity|]].
  intros Hcheck Hstate. rewrite main_absent; trivial.
  unfold bind. rewrite Hdel. reflexivity.
Qed.

(** X8. Outside check mode, a [state] that is neither [present] nor [absent]
    ends the pass in an [UnboundLocalError] (the read of [result]) right
    after the client is built: no call is made and nothing is reported. *)
Theorem unknown_state_raises (module : Module) (w : World S) :
  check_mode module = false ->
  state (params module) <> "present" ->
  state (params module) <> "absent" ->
  main urlparse_path module w =
    (Raised UnboundLocalError,
     {| remote := remote w; trace := trace w ++ [EvNewClient] |}).
Proof.
  intros Hcheck Hp Ha. apply String.eqb_neq in Hp, Ha.
  unfold main, generate_argument_spec. rewrite Hcheck.
  unfold bind at 1. unfold ret at 1.
  unfold bind at 1. unfold NutanixApiClient at 1.
  rewrite Hp, Ha. reflexivity.
Qed.

(** X9. Whatever the remote side answers, the only delete call [_delete] can
    make is for the one listed image of the requested name: when it deletes,
    exactly one listed image has the name and the call carries its uuid. *)
Theorem delete_only_the_single_named_image
    (module : Module) (result : Result) (w : World S) :
  let listing :=
    fst (api_list_entities "images" (set_list_payload (data (params module)))
           (remote w)) in
  exists evs,
    trace (snd (_delete module result w)) = trace w ++ evs
    /\ (filter is_delete evs = []
        \/ exists e,
             named (image_name (params module)) listing = [e]
             /\ filter is_delete evs = [EvDelete (ent_uuid e)]).
Proof.
  intros listing.
  destruct (String.eqb_spec (image_name (params module)) "") as [Hname|Hname].
  { exists []. unfold _delete. rewrite Hname. simpl. rewrite app_nil_r.
    split; [reflexivity | left; reflexivity]. }
  destruct (api_list_entities "images" (set_list_payload (data (params module)))
              (remote w)) as [es r1] eqn:Hlist.
  simpl in listing. subst listing.
  destruct (named (image_name (params module)) es) as [|e [|e2 rest]] eqn:Hnamed.
  - rewrite delete_nothing with (es := es) (r' := r1); trivial.
    eexists. split; [reflexivity | left; reflexivity].
  - unfold _delete. rewrite (nonempty_eqb Hname).
    unfold bind at 1. unfold list_entities, call at 1. rewrite Hlist.
    rewrite scan_for_delete_single with (e := e) by exact Hnamed. simpl.
    unfold bind, delete_image, task_poll, call, ret. simpl.
    destruct (api_delete_image (ent_uuid e) r1) as [[task|] r2]; simpl;
      [destruct (task =? ""); simpl;
       [|destruct (api_task_poll task r2) as [[status|] r3]; simpl;
         [destruct (status =? ""); simpl|]]|];
      rewrite <- ?app_assoc; simpl;
      (eexists; split; [reflexivity | right; exists e; split; reflexivity]).
  - rewrite delete_ambiguous with (es := es) (r' := r1); trivial.
    + eexists. split; [reflexivity | left; reflexivity].
    + rewrite Hnamed. simpl. lia.
Qed.

(** *** Creation *)

Lemma match_entities_no_name (name : string) (type description : option string)
    (es : list Entity) :
  forall st u,
    named name es = [] ->
    match_entities name type description es st u = (st, u).
Proof.
  induction es as [|e es IH]; intros st u Hnone; trivial.
  simpl in *. unfold same_name in Hnone.
  destruct (name =? ent_name e); [discriminate | now apply IH].
Qed.

Lemma create_new_image
    (module : Module) (result : Result) (w w1 : World S)
    (image_spec : CreatePayload) (es : list Entity) (task new_uuid : string)
    (status : option string) (r2 r3 r4 : S) :
  create_image_spec urlparse_path module result w = (Returned image_spec, w1) ->
  api_list_entities "images" (set_list_payload (data (params module))) (remote w1)
    = (es, r2) ->
  named (image_name (params module)) es = [] ->
  api_create_image image_spec r2 = ((task, new_uuid), r3) ->
  api_task_poll task r3 = (status, r4) ->
  _create urlparse_path module result w =
    (Returned
       match failure_of status with
       | Some s => set_msg (MsgStr s) (set_failed true result)
       | None => set_changed true (set_image_uuid new_uuid result)
       end,
     {| remote := r4;
        trace := trace w1 ++
          [images_listing module; EvCreate image_spec; EvPoll task] |}).
Proof.
  intros Hspec Hlist Hnone Hcreate Hpoll.
  assert (Hstate : get_existing_image_state module w1 =
            (Returned (no_state, None),
             {| remote := r2; trace := trace w1 ++ [images_listing module] |})).
  { unfold get_existing_image_state, bind, list_entities, call, ret.
    rewrite Hlist. rewrite match_entities_no_name; trivial. }
  rewrite (@create_after_state _ _ _ _ _ _ _ _ _ _ _ Hspec Hstate).
  simpl. unfold bind, create_image, task_poll, call, ret. simpl.
  rewrite Hcreate. simpl. rewrite Hpoll.
  rewrite <- !app_assoc. simpl.
  destruct status as [s|]; simpl; trivial.
  destruct (s =? ""); reflexivity.
Qed.

(** X10. When the request is built, no listed image has the requested name
    and the create task ends without failure, [_create] has listed the
    images, created the image and polled its task, in that order, and
    returns with [changed] true and the uuid the create call handed back. *)
Theorem create_reports_new_image
    (module : Module) (result : Result) (w w1 : World S)
    (image_spec : CreatePayload) (es : list Entity) (task new_uuid : string)
    (status : option string) (r2 r3 r4 : S) :
  create_image_spec urlparse_path module result w = (Returned image_spec, w1) ->
  api_list_entities "images" (set_list_payload (data (params module))) (remote w1)
    = (es, r2) ->
  named (image_name (params module)) es = [] ->
  api_create_image image_spec r2 = ((task, new_uuid), r3) ->
  api_task_poll task r3 = (status, r4) ->
  failure_of status = None ->
  _create urlparse_path module result w =
    (Returned (set_changed true (set_image_uuid new_uuid result)),
     {| remote := r4;
        trace := trace w1 ++
          [images_listing module; EvCreate image_spec; EvPoll task] |}).
Proof.
  intros Hspec Hlist Hnone Hcreate Hpoll Hclean.
  rewrite (create_new_image module result w Hspec Hlist Hnone Hcreate Hpoll).
  now rewrite Hclean.
Qed.

(** X11. When the create task fails, [_create] returns the result marked
    failed with the task's message; [changed] stays as it was and the uuid
    of the image, which the create call has handed back, is not reported. *)
Theorem create_task_failure_is_reported
    (module : Module) (result : Result) (w w1 : World S)
    (image_spec : CreatePayload) (es : list Entity) (task new_uuid reason : string)
    (status : option string) (r2 r3 r4 : S) :
  create_image_spec urlparse_path module result w = (Returned image_spec, w1) ->
  api_list_entities "images" (set_list_payload (data (params module))) (remote w1)
    = (es, r2) ->
  named (image_name (params module)) es = [] ->
  api_create_image image_spec r2 = ((task, new_uuid), r3) ->
  api_task_poll task r3 = (status, r4) ->
  failure_of status = Some reason ->
  let outcome := set_msg (MsgStr reason) (set_failed true result) in
  _create urlparse_path module result w =
    (Returned outcome,
     {| remote := r4;
        trace := trace w1 ++
          [images_listing module; EvCreate image_spec; EvPoll task] |})
  /\ changed outcome = changed result
  /\ res_image_uuid outcome = res_image_uuid result.
Proof.
  intros Hspec Hlist Hnone Hcreate Hpoll Hfail outcome.
  split; [|split; reflexivity].
  rewrite (create_new_image module result w Hspec Hlist Hnone Hcreate Hpoll).
  now rewrite Hfail.
Qed.

(** *** Update *)

Lemma update_run
    (module : Module) (result : Result) (matched : option string) (w : World S)
    (current : ImageSpec) (task : string) (status : option string) (r1 r2 r3 : S) :
  api_get_image (update_target module matched) (remote w) = (current, r1) ->
  is_has_status current = true ->
  api_update_image (update_uuid module matched current)
    (update_request module current) r1 = (task, r2) ->
  api_task_poll task r2 = (status, r3) ->
  _update module result matched w =
    (Returned
       match failure_of status with
       | Some s => set_msg (MsgStr s) (set_failed true result)
       | None => set_changed true result
       end,
     {| remote := r3;
        trace := trace w ++
          [EvGet (update_target module matched);
           EvUpdate (update_uuid module matched current)
             (update_request module current);
           EvPoll task] |}).
Proof.
  unfold update_uuid, update_request, request_description, update_target.
  intros Hget Hstatus Hupdate Hpoll.
  unfold _update.
  unfold bind at 1. unfold get_image, call at 1. rewrite Hget, Hstatus. simpl.
  unfold bind, update_image, task_poll, call.
  destruct (image_description (params module)) as [d|] eqn:Hd; simpl in *;
    [destruct (String.eqb_spec d "") as [->|Hne]; simpl in *|];
    rewrite Hupdate; simpl; rewrite Hpoll; simpl;
    rewrite <- !app_assoc; simpl;
    (destruct status as [s|]; simpl; [destruct (s =? "")|]; reflexivity).
Qed.

(** X12. [_update] reads the image under the [image_uuid] parameter when one
    is given and under the matched uuid otherwise, and sends back what it
    read with the status section removed and only type and description
    overwritten.  It sends it under that same uuid when a description is
    supplied, and under the uuid found in the metadata it read when none is;
    then it polls the task of the update. *)
Theorem update_rewrites_type_and_description
    (module : Module) (result : Result) (matched : option string) (w : World S)
    (current : ImageSpec) (r1 : S) :
  api_get_image (update_target module matched) (remote w) = (current, r1) ->
  is_has_status current = true ->
  let sent := update_request module current in
  let task := fst (api_update_image (update_uuid module matched current) sent r1) in
  trace (snd (_update module result matched w)) =
    trace w ++
      [EvGet (update_target module matched);
       EvUpdate (update_uuid module matched current) sent; EvPoll task]
  /\ is_spec_name sent = is_spec_name current
  /\ is_metadata_uuid sent = is_metadata_uuid current
  /\ is_has_status sent = false
  /\ (truthy (image_uuid (params module)) = true ->
      update_target module matched = image_uuid (params module))
  /\ (truthy (image_description (params module)) = false ->
      update_uuid module matched current = Some (is_metadata_uuid current)).
Proof.
  intros Hget Hstatus sent task.
  split; [|repeat split].
  - destruct (api_update_image (update_uuid module matched current) sent r1)
      as [t r2] eqn:Hupdate.
    destruct (api_task_poll t r2) as [status r3] eqn:Hpoll.
    rewrite (update_run module result matched w Hget Hstatus Hupdate Hpoll).
    reflexivity.
  - intros Hgiven. unfold update_target. now rewrite Hgiven.
  - intros Hnone. unfold update_uuid. now rewrite Hnone.
Qed.

(** X13. The result of [_update] follows the task of the update: when the
    poll reports no failure the result comes back with [changed] true, and
    when it reports one the result comes back marked failed with the task's
    message and [changed] as it was. *)
Theorem update_reports_task_outcome
    (module : Module) (result : Result) (matched : option string) (w : World S)
    (current : ImageSpec) (task : string) (status : option string) (r1 r2 r3 : S) :
  api_get_image (update_target module matched) (remote w) = (current, r1) ->
  is_has_status current = true ->
  api_update_image (update_uuid module matched current)
    (update_request module current) r1 = (task, r2) ->
  api_task_poll task r2 = (status, r3) ->
  (failure_of status = None ->
   fst (_update module result matched w) = Returned (set_changed true result))
  /\ (forall reason,
        failure_of status = Some reason ->
        fst (_update module result matched w) =
          Returned (set_msg (MsgStr reason) (set_failed true result))
        /\ changed (set_msg (MsgStr reason) (set_failed true result)) = changed result).
Proof.
  intros Hget Hstatus Hupdate Hpoll.
  rewrite (update_run module result matched w Hget Hstatus Hupdate Hpoll).
  split.
  - intros Hclean. now rewrite Hclean.
  - intros reason Hfail. rewrite Hfail. split; reflexivity.
Qed.

(** X14. When what [get_image] answers has no status section, [_update]
    dies on the [KeyError] of [del image_spec["status"]] right after the
    read: no update is sent and nothing is polled. *)
Theorem update_without_status_raises
    (module : Module) (result : Result) (matched : option string) (w : World S)
    (current : ImageSpec) (r1 : S) :
  api_get_image (update_target module matched) (remote w) = (current, r1) ->
  is_has_status current = false ->
  _update module result matched w =
    (Raised KeyError,
     {| remote := r1; trace := trace w ++ [EvGet (update_target module matched)] |}).
Proof.
  unfold update_target. intros Hget Hstatus.
  unfold _update.
  unfold bind at 1. unfold get_image, call at 1. rewrite Hget, Hstatus. reflexivity.
Qed.

(** *** The flags of the existing state *)

Lemma match_entities_flags (name : string) (type description : option string)
    (es : list Entity) :
  forall st u,
    fst (match_entities name type description es st u) =
      match find (further_match type description) (named name es) with
      | Some e =>
          if type_agrees type e && description_agrees description e then
            {| match_state := true; match_name := true;
               match_type := match_type st;
               match_description := match_description st |}
          else if type_agrees type e then
            {| match_state := match_state st; match_name := true;
               match_type := true; match_description := match_description st |}
          else
            {| match_state := match_state st; match_name := true;
               match_type := match_type st; match_description := true |}
      | None =>
          match named name es with
          | [] => st
          | _ :: _ =>
              {| match_state := match_state st; match_name := true;
                 match_type := match_type st;
                 match_description := match_description st |}
          end
      end.
Proof.
  unfold type_agrees, description_agrees, further_match, named, same_name.
  induction es as [|e es IH]; intros st u; trivial.
  simpl. destruct (name =? ent_name e); [|apply IH].
  simpl.
  destruct (py_eq type (Some (ent_image_type e))) eqn:Ht;
    destruct (py_eq description (ent_description e)) eqn:Hd;
    simpl; rewrite ?Ht, ?Hd; simpl; trivial.
  rewrite IH. simpl.
  destruct (find _ (filter _ es)) as [x|].
  - destruct (py_eq type (Some (ent_image_type x)));
      destruct (py_eq description (ent_description x)); reflexivity.
  - destruct (filter _ es); reflexivity.
Qed.

(** X15. The flags of the match result are decided by the first listed
    image of the requested name that agrees with the request on the type or
    on the description: [match_state] when it agrees on both, [match_type]
    when only on the type, [match_description] when only on the description;
    images of the name listed after it are not looked at.  Without such an
    image none of the three is set, and [match_name] tells whether any
    listed image has the name. *)
Theorem existing_state_flags (module : Module) (w : World S) :
  let p := params module in
  let listing :=
    fst (api_list_entities "images" (set_list_payload (data p)) (remote w)) in
  exists st u,
    fst (get_existing_image_state module w) = Returned (st, u)
    /\ (match_name st = true <-> named (image_name p) listing <> [])
    /\ match find (further_match (image_type p) (image_description p))
               (named (image_name p) listing) with
       | Some e =>
           let t := type_agrees (image_type p) e in
           let d := description_agrees (image_description p) e in
           match_state st = t && d
           /\ match_type st = t && negb d
           /\ match_description st = negb t && d
       | None =>
           match_state st = false /\ match_type st = false
           /\ match_description st = false
       end.
Proof.
  intros p listing.
  unfold get_existing_image_state, bind, list_entities, call, ret.
  fold p. fold listing.
  destruct (api_list_entities "images" (set_list_payload (data p)) (remote w))
    as [es r'] eqn:Hl.
  simpl in listing. subst listing. simpl.
  rewrite (surjective_pairing (match_entities _ _ _ es _ _)).
  do 2 eexists. split; [reflexivity|].
  rewrite match_entities_flags.
  destruct (find _ (named (image_name p) es)) as [e|] eqn:Hfind.
  - assert (Hsome : named (image_name p) es <> []).
    { intros Hnil. rewrite Hnil in Hfind. discriminate. }
    apply find_some in Hfind. destruct Hfind as [_ Hfurther].
    unfold further_match in Hfurther.
    fold (type_agrees (image_type p) e) in Hfurther.
    fold (description_agrees (image_description p) e) in Hfurther.
    destruct (type_agrees (image_type p) e);
      destruct (description_agrees (image_description p) e);
      try discriminate; simpl; (split; [split; trivial|]); repeat split.
  - destruct (named (image_name p) es) eqn:Hnamed; simpl.
    + split; [split; [discriminate | intros H; now elim H]|]. repeat split.
    + split; [split; [discriminate | reflexivity]|]. repeat split.
Qed.

(** X16. In every match result at most one of [match_state], [match_type]
    and [match_description] is set, each of them comes with [match_name],
    and a uuid is reported exactly when [match_name] is set. *)
Theorem existing_state_is_well_formed
    (module : Module) (w w' : World S) (st : ImageState) (u : option string) :
  get_existing_image_state module w = (Returned (st, u), w') ->
  (match_state st = true ->
   match_name st = true /\ match_type st = false /\ match_description st = false)
  /\ (match_type st = true ->
      match_name st = true /\ match_state st = false /\ match_description st = false)
  /\ (match_description st = true ->
      match_name st = true /\ match_state st = false /\ match_type st = false)
  /\ (match_name st = true <-> u <> None).
Proof.
  unfold get_existing_image_state, bind, list_entities, call, ret.
  destruct (api_list_entities _ _ (remote w)) as [es r'].
  intros Heq. injection Heq as Hst _.
  rewrite (surjective_pairing (match_entities _ _ _ es _ _)) in Hst.
  injection Hst as Hst Hu.
  rewrite match_entities_flags in Hst. rewrite match_entities_uuid in Hu.
  unfold matched_uuid in Hu.
  destruct (find _ (named _ es)) as [e|] eqn:Hfind.
  - destruct (type_agrees _ e && description_agrees _ e);
      [|destruct (type_agrees _ e)]; subst st u; simpl;
      repeat split; try discriminate; trivial.
  - destruct (named _ es) as [|x l] eqn:Hnamed; subst st; simpl.
    + simpl in Hu. subst u.
      repeat split; try discriminate; intros H; now elim H.
    + assert (Hsome : u <> None).
      { destruct (last (map (fun e => Some (ent_uuid e)) (x :: l)) None) eqn:Hlast.
        - subst u. discriminate.
        - apply last_uuid_none in Hlast. discriminate. }
      repeat split; try discriminate; trivial.
Qed.

(** *** The steps of the builder *)

Lemma bind_run {A B} (c : M S A) (k : A -> M S B) (w : World S) :
  bind c k w =
    match c w with
    | (Returned a, w') => k a w'
    | (ExitJson r, w') => (ExitJson r, w')
    | (FailJson m, w') => (FailJson m, w')
    | (Raised e, w') => (Raised e, w')
    end.
Proof. reflexivity. Qed.

(** [create_image_spec] is its three steps in a row, followed by the
    request they determine. *)
Lemma create_image_spec_steps (module : Module) (result : Result) (w : World S) :
  create_image_spec urlparse_path module result w =
    (type <- settle_type urlparse_path module ;;
     disk <- settle_disk module ;;
     placement <- settle_placement module ;;
     ret (built_request (params module) type disk placement)) w.
Proof.
  unfold create_image_spec. cbv zeta.
  fold (settle_type (S := S) urlparse_path module). fold (vm_lookup module).
  fold (settle_disk (S := S) module).
  do 2 rewrite bind_run.
  destruct (settle_type urlparse_path module w) as [[t | r | m | e] w1]; trivial.
  do 2 rewrite bind_run.
  destruct (settle_disk module w1) as [[d | r | m | e] w2]; trivial.
  unfold built_request, request_description.
  destruct (truthy d) eqn:Hd; [|destruct (truthy (image_url (params module))) eqn:Hu];
    cbn [cp_initial_placement_ref_list cp_checksum cp_image_type cp_spec_name
         cp_allow_insecure_connection cp_data_source_reference cp_source_uri
         cp_description cp_api_version cp_metadata_kind cp_metadata_name
         CREATE_PAYLOAD];
    match goal with
    | |- bind ?c _ _ = _ => change c with (settle_placement (S := S) module)
    end;
    do 2 rewrite bind_run;
    destruct (settle_placement module w2) as [[pl | r | m | e] w3]; trivial;
    unfold ret;
    destruct (image_checksum (params module));
    (destruct (image_description (params module)) as [x|];
     [destruct (String.eqb_spec x "") as [->|Hx];
      [|apply String.eqb_neq in Hx; simpl; rewrite Hx]|]);
    rewrite ?Hu; simpl;
    try destruct (truthy (image_url (params module))); reflexivity.
Qed.

Lemma settle_type_given (module : Module) (w : World S) :
  truthy (image_type (params module)) = true ->
  exists t,
    image_type (params module) = Some t
    /\ settle_type urlparse_path module w = (Returned t, w).
Proof.
  unfold settle_type. destruct (image_type (params module)) as [t|]; simpl;
    [|discriminate].
  intros Ht. exists t. destruct (t =? ""); [discriminate | split; reflexivity].
Qed.

Lemma settle_disk_without_lookup (module : Module) (w : World S) :
  truthy (vm_disk (params module)) && negb (truthy (vm_disk_uuid (params module)))
    = false ->
  settle_disk module w = (Returned (vm_disk_uuid (params module)), w).
Proof. intros Hno. unfold settle_disk. now rewrite Hno. Qed.

Lemma settle_disk_lookup (module : Module) (w : World S) (vms : list Entity) (r' : S) :
  truthy (vm_disk (params module)) = true ->
  truthy (vm_disk_uuid (params module)) = false ->
  api_list_entities "vms" (vm_lookup module) (remote w) = (vms, r') ->
  settle_disk module w =
    (match vms with
     | [] => Raised IndexError
     | vm :: _ =>
         match ent_disk_list vm with
         | [] => Raised IndexError
         | disk_uuid :: _ => Returned (Some disk_uuid)
         end
     end,
     {| remote := r'; trace := trace w ++ [EvList "vms" (vm_lookup module)] |}).
Proof.
  intros Hvm Hid Hlist. unfold settle_disk. rewrite Hvm, Hid. simpl.
  rewrite bind_run. unfold list_entities, call. rewrite Hlist.
  destruct vms as [|vm rest]; trivial.
  destruct (ent_disk_list vm); reflexivity.
Qed.

(** What a built request tells about the steps. *)
Lemma create_image_spec_built
    (module : Module) (result : Result) (w w' : World S) (payload : CreatePayload) :
  create_image_spec urlparse_path module result w = (Returned payload, w') ->
  exists type disk placement w1 w2,
    settle_type urlparse_path module w = (Returned type, w1)
    /\ settle_disk module w1 = (Returned disk, w2)
    /\ settle_placement module w2 = (Returned placement, w')
    /\ payload = built_request (params module) type disk placement.
Proof.
  rewrite create_image_spec_steps. rewrite bind_run.
  destruct (settle_type urlparse_path module w) as [[t | r | m | e] w1] eqn:Ht;
    try discriminate.
  rewrite bind_run.
  destruct (settle_disk module w1) as [[d | r | m | e] w2] eqn:Hd; try discriminate.
  rewrite bind_run.
  destruct (settle_placement module w2) as [[pl | r | m | e] w3] eqn:Hpl;
    try discriminate.
  unfold ret. intros H. injection H as <- <-.
  exists t, d, pl, w1, w2. repeat split; assumption.
Qed.

Lemma settle_placement_returns
    (module : Module) (w w' : World S) (placement : option (list string)) :
  settle_placement module w = (Returned placement, w') ->
  (placement = None <->
   clusters (params module) = None \/ clusters (params module) = Some []).
Proof.
  unfold settle_placement.
  destruct (clusters (params module)) as [[|c cs]|].
  - unfold ret. intros H. injection H as <- _. split; auto.
  - rewrite bind_run. unfold list_entities, call.
    destruct (api_list_entities _ _ (remote w)) as [es r'].
    destruct (resolve_clusters (c :: cs) es _) as [d refs].
    destruct (negb _).
    + destruct (remove_resolved _ _); discriminate.
    + unfold ret. intros H. injection H as <- _.
      split; [discriminate | intros [H | H]; discriminate].
  - unfold ret. intros H. injection H as <- _. split; auto.
Qed.

(** X17. What every built request carries, whatever the source and the
    placement: the image name both as [spec.name] and as [metadata.name],
    the description that was given or the empty one, the checksum exactly
    when a URL and a checksum were given, the constants of the template, and
    a placement list exactly when clusters were requested. *)
Theorem built_request_fields
    (module : Module) (result : Result) (w w' : World S) (payload : CreatePayload) :
  create_image_spec urlparse_path module result w = (Returned payload, w') ->
  let p := params module in
  cp_spec_name payload = image_name p
  /\ cp_metadata_name payload = image_name p
  /\ cp_description payload = request_description p
  /\ cp_checksum payload = (if truthy (image_url p) then image_checksum p else None)
  /\ cp_api_version payload = "3.1.0"
  /\ cp_metadata_kind payload = "image"
  /\ cp_allow_insecure_connection payload = true
  /\ (cp_initial_placement_ref_list payload = None <->
      clusters p = None \/ clusters p = Some []).
Proof.
  intros Hbuilt p.
  destruct (create_image_spec_built _ _ _ Hbuilt)
    as [t [d [pl [w1 [w2 [_ [_ [Hpl ->]]]]]]]].
  repeat split; try reflexivity;
    apply (settle_placement_returns _ _ Hpl).
Qed.

(** X18. A disk uuid wins over everything else: with [vm_disk_uuid] given,
    every built request is a [DISK_IMAGE] whose data source is that disk and
    which has no source URI, whatever [image_type] and [image_url] say; and
    with a type given and no clusters requested the request is built without
    a single call. *)
Theorem disk_uuid_precedes_url
    (module : Module) (result : Result) (w : World S) :
  truthy (vm_disk_uuid (params module)) = true ->
  (forall payload w',
     create_image_spec urlparse_path module result w = (Returned payload, w') ->
     cp_image_type payload = "DISK_IMAGE"
     /\ cp_data_source_reference payload = vm_disk_uuid (params module)
     /\ cp_source_uri payload = None)
  /\ (truthy (image_type (params module)) = true ->
      clusters (params module) = None ->
      exists payload,
        create_image_spec urlparse_path module result w = (Returned payload, w)).
Proof.
  intros Hid.
  assert (Hdisk : forall w0, settle_disk module w0
                    = (Returned (vm_disk_uuid (params module)), w0)).
  { intros w0. apply settle_disk_without_lookup. rewrite Hid.
    apply andb_false_r. }
  split.
  - intros payload w' Hbuilt.
    destruct (create_image_spec_built _ _ _ Hbuilt)
      as [t [d [pl [w1 [w2 [_ [Hd [_ ->]]]]]]]].
    rewrite Hdisk in Hd. injection Hd as <- _.
    unfold built_request. simpl. rewrite Hid. repeat split.
  - intros Ht Hcl.
    destruct (settle_type_given module w Ht) as [t [_ Htype]].
    rewrite create_image_spec_steps.
    rewrite bind_run, Htype, bind_run, Hdisk, bind_run.
    unfold settle_placement. rewrite Hcl.
    eexists. reflexivity.
Qed.

(** X19. With every source absent or empty, which an
    empty [image_url] makes possible, every built request still carries the
    placeholder [IMAGE_TYPE] of the template and names no source at all. *)
Theorem request_without_source_keeps_placeholder
    (module : Module) (result : Result) (w w' : World S) (payload : CreatePayload) :
  truthy (image_url (params module)) = false ->
  truthy (vm_disk (params module)) = false ->
  truthy (vm_disk_uuid (params module)) = false ->
  create_image_spec urlparse_path module result w = (Returned payload, w') ->
  cp_image_type payload = "IMAGE_TYPE"
  /\ cp_data_source_reference payload = None
  /\ cp_source_uri payload = None.
Proof.
  intros Hurl Hvm Hid Hbuilt.
  destruct (create_image_spec_built _ _ _ Hbuilt)
    as [t [d [pl [w1 [w2 [_ [Hd [_ ->]]]]]]]].
  rewrite settle_disk_without_lookup in Hd by (now rewrite Hvm).
  injection Hd as <- _.
  unfold built_request. simpl. rewrite Hid, Hurl. repeat split.
Qed.

(** X20. With a type given and a VM named by [vm_disk], the builder lists
    the VMs under the filter [vm_name==<vm_disk>]; when the listing is empty,
    or its first VM has no disk, the builder dies on an [IndexError] right
    after that listing, and so does [_create], before it reads the images. *)
Theorem vm_lookup_without_disk_raises
    (module : Module) (result : Result) (w : World S) (vms : list Entity) (r' : S) :
  truthy (image_type (params module)) = true ->
  truthy (vm_disk (params module)) = true ->
  truthy (vm_disk_uuid (params module)) = false ->
  api_list_entities "vms" (vm_lookup module) (remote w) = (vms, r') ->
  vms = [] \/ (exists vm rest, vms = vm :: rest /\ ent_disk_list vm = []) ->
  let w' := {| remote := r'; trace := trace w ++ [EvList "vms" (vm_lookup module)] |} in
  create_image_spec urlparse_path module result w = (Raised IndexError, w')
  /\ _create urlparse_path module result w = (Raised IndexError, w').
Proof.
  intros Ht Hvm Hid Hlist Hempty w'.
  destruct (settle_type_given module w Ht) as [t [_ Htype]].
  assert (Hfail : create_image_spec urlparse_path module result w
                    = (Raised IndexError, w')).
  { rewrite create_image_spec_steps.
    rewrite bind_run, Htype, bind_run.
    rewrite (settle_disk_lookup module w Hvm Hid Hlist).
    destruct Hempty as [-> | [vm [rest [-> Hnodisk]]]]; [reflexivity|].
    now rewrite Hnodisk. }
  split; [exact Hfail|].
  unfold _create. rewrite bind_run, Hfail. reflexivity.
Qed.

(** X21. With a type given and a VM named by [vm_disk] whose listing starts
    with a VM that has a disk, the builder goes on, after that one listing,
    exactly as if the uuid of the first disk of that first VM had been given
    as [vm_disk_uuid]. *)
Theorem vm_disk_resolves_to_first_disk
    (module : Module) (result : Result) (w : World S)
    (vm : Entity) (rest : list Entity) (disk : string) (disks : list string) (r' : S) :
  truthy (image_type (params module)) = true ->
  truthy (vm_disk (params module)) = true ->
  truthy (vm_disk_uuid (params module)) = false ->
  api_list_entities "vms" (vm_lookup module) (remote w) = (vm :: rest, r') ->
  ent_disk_list vm = disk :: disks ->
  disk <> "" ->
  create_image_spec urlparse_path module result w =
    create_image_spec urlparse_path (set_vm_disk_uuid disk module) result
      {| remote := r'; trace := trace w ++ [EvList "vms" (vm_lookup module)] |}.
Proof.
  intros Ht Hvm Hid Hlist Hdisks Hdisk.
  set (w' := {| remote := r'; trace := trace w ++ [EvList "vms" (vm_lookup module)] |}).
  destruct (settle_type_given module w Ht) as [t [Hgiven Htype]].
  rewrite !create_image_spec_steps.
  rewrite bind_run, Htype, bind_run.
  rewrite (settle_disk_lookup module w Hvm Hid Hlist). rewrite Hdisks.
  fold w'.
  assert (Htype' : settle_type urlparse_path (set_vm_disk_uuid disk module) w'
                     = (Returned t, w')).
  { destruct (settle_type_given (set_vm_disk_uuid disk module) w') as [t' [Ht' Hrun]].
    - exact Ht.
    - simpl in Ht'. rewrite Hgiven in Ht'. injection Ht' as <-. exact Hrun. }
  rewrite (bind_run (settle_type urlparse_path (set_vm_disk_uuid disk module))), Htype'.
  rewrite (bind_run (settle_disk (set_vm_disk_uuid disk module))).
  rewrite settle_disk_without_lookup.
  - reflexivity.
  - simpl. apply String.eqb_neq in Hdisk. rewrite Hdisk. apply andb_false_r.
Qed.

(** *** Placement *)

Lemma resolve_cluster_refs (c : string) (es : list Entity) :
  forall d pl,
    snd (resolve_cluster c es (d, pl)) =
      pl ++ map ent_uuid (filter (fun e => ent_name e =? c) es).
Proof.
  induction es as [|e es IH]; intros d pl; simpl.
  - now rewrite app_nil_r.
  - destruct (ent_name e =? c); simpl.
    + rewrite IH. now rewrite <- app_assoc.
    + apply IH.
Qed.

Lemma resolve_clusters_refs (es : list Entity) (cl : list string) :
  forall d pl, snd (resolve_clusters cl es (d, pl)) = pl ++ placement_of es cl.
Proof.
  induction cl as [|c cl IH]; intros d pl; simpl.
  - now rewrite app_nil_r.
  - pose proof (resolve_cluster_refs c es d pl) as Hrefs.
    destruct (resolve_cluster c es (d, pl)) as [d' pl']. simpl in Hrefs.
    rewrite IH, Hrefs. now rewrite <- app_assoc.
Qed.

Lemma filter_all {A} (f : A -> bool) (l : list A) :
  filter (fun x => negb (f x)) l = [] -> filter f l = l.
Proof.
  induction l as [|x l IH]; simpl; trivial.
  destruct (f x); simpl; [|discriminate].
  intros H. now rewrite IH.
Qed.

Lemma settle_placement_resolved
    (module : Module) (w : World S) (cl : list string) (es : list Entity) (r' : S) :
  clusters (params module) = Some cl -> cl <> [] -> NoDup cl ->
  api_list_entities "clusters" (set_list_payload (data (params module))) (remote w)
    = (es, r') ->
  unresolved es cl = [] ->
  settle_placement module w =
    (Returned (Some (placement_of es cl)),
     {| remote := r'; trace := trace w ++ [clusters_listing module] |}).
Proof.
  intros Hcl Hsome Hnd Hlist Hall.
  unfold settle_placement. rewrite Hcl.
  destruct cl as [|c cs]; [now elim Hsome|].
  rewrite bind_run. unfold list_entities, call. rewrite Hlist.
  match goal with
  | |- context [resolve_clusters (c :: cs) es ?acc] =>
      assert (Hkeys : dict_keys (fst (resolve_clusters (c :: cs) es acc))
                = filter (resolved es) (c :: cs))
        by (apply (@resolve_clusters_keys es (c :: cs) [] [] Hnd (fun _ _ => eq_refl)));
      assert (Hrefs : snd (resolve_clusters (c :: cs) es acc)
                = placement_of es (c :: cs))
        by (apply (@resolve_clusters_refs es (c :: cs) [] []));
      destruct (resolve_clusters (c :: cs) es acc) as [d refs]
  end.
  cbn [fst snd] in Hkeys, Hrefs.
  rewrite (filter_all _ _ Hall) in Hkeys.
  assert (Hlen : List.length d = List.length (c :: cs)).
  { rewrite <- Hkeys. unfold dict_keys. symmetry. apply length_map. }
  rewrite Hlen, Nat.eqb_refl. cbn [negb]. now rewrite Hrefs.
Qed.

(** X22. With a type given, no VM to look up and a list of distinct
    requested cluster names that are all listed, the builder makes the one
    cluster listing and builds the request; its placement list holds, for
    every requested name in the order of the request, the uuids of the
    listed clusters of that name. *)
Theorem resolved_clusters_are_placed
    (module : Module) (result : Result) (w : World S) (t : string)
    (cl : list string) (es : list Entity) (r' : S) :
  image_type (params module) = Some t -> t <> "" ->
  truthy (vm_disk (params module)) && negb (truthy (vm_disk_uuid (params module)))
    = false ->
  clusters (params module) = Some cl -> cl <> [] -> NoDup cl ->
  api_list_entities "clusters" (set_list_payload (data (params module))) (remote w)
    = (es, r') ->
  unresolved es cl = [] ->
  create_image_spec urlparse_path module result w =
    (Returned
       (built_request (params module) t (vm_disk_uuid (params module))
          (Some (placement_of es cl))),
     {| remote := r'; trace := trace w ++ [clusters_listing module] |}).
Proof.
  intros Ht Hne Hno Hcl Hsome Hnd Hlist Hall.
  destruct (settle_type_given module w) as [t' [Hgiven Htype]].
  { rewrite Ht. now apply truthy_some. }
  rewrite Ht in Hgiven. injection Hgiven as <-.
  rewrite create_image_spec_steps.
  rewrite bind_run, Htype, bind_run.
  rewrite (settle_disk_without_lookup module w Hno).
  rewrite bind_run.
  rewrite (settle_placement_resolved module w Hcl Hsome Hnd Hlist Hall).
  reflexivity.
Qed.

(** *** Exceptions of the builder *)

Lemma list_remove_in (x : string) (l : list string) :
  In x l ->
  exists r, list_remove x l = Some r /\ (forall y, y <> x -> In y l -> In y r).
Proof.
  induction l as [|a l IH]; intros Hin; [contradiction|].
  simpl. destruct (String.eqb_spec a x) as [->|Hne].
  - exists l. split; trivial.
    intros y Hy [Heq|Hl]; [now elim Hy | exact Hl].
  - destruct Hin as [Heq|Hin]; [now elim Hne|].
    destruct (IH Hin) as [r [Hr Hkeep]]. rewrite Hr.
    exists (a :: r). split; trivial.
    intros y Hy [Heq|Hl]; [now left | right; now apply Hkeep].
Qed.

Lemma remove_resolved_total (names : list string) :
  forall l, NoDup names -> incl names l -> remove_resolved names l <> None.
Proof.
  induction names as [|n names IH]; intros l Hnd Hincl; simpl; [discriminate|].
  apply NoDup_cons_iff in Hnd. destruct Hnd as [Hnotin Hnd].
  destruct (list_remove_in n l) as [r [Hr Hkeep]].
  { apply Hincl. now left. }
  rewrite Hr. apply IH; trivial.
  intros y Hy. apply Hkeep.
  - intros ->. contradiction.
  - apply Hincl. now right.
Qed.

Lemma existsb_eqb_in (c : string) (l : list string) :
  existsb (fun k' => k' =? c) l = true <-> In c l.
Proof.
  rewrite existsb_exists. split.
  - intros [x [Hin Heq]]. apply String.eqb_eq in Heq. now subst.
  - intros Hin. exists c. split; trivial. apply String.eqb_refl.
Qed.

Lemma resolve_clusters_keys_sound (es : list Entity) (cl : list string) :
  forall d pl,
    NoDup (dict_keys d) ->
    NoDup (dict_keys (fst (resolve_clusters cl es (d, pl))))
    /\ incl (dict_keys (fst (resolve_clusters cl es (d, pl)))) (dict_keys d ++ cl).
Proof.
  induction cl as [|c cl IH]; intros d pl Hnd; simpl.
  - split; trivial. rewrite app_nil_r. apply incl_refl.
  - pose proof (resolve_cluster_keys c es d pl) as Hkeys.
    destruct (resolve_cluster c es (d, pl)) as [d' pl']. simpl in Hkeys.
    assert (Hstep : NoDup (dict_keys d') /\ incl (dict_keys d') (dict_keys d ++ [c])).
    { rewrite Hkeys. destruct (resolved es c).
      - destruct (existsb _ (dict_keys d)) eqn:Hin.
        + split; trivial. apply incl_appl, incl_refl.
        + split; [|apply incl_refl].
          apply NoDup_app; trivial.
          * constructor; [intros [] | constructor].
          * intros x Hx [<-|[]].
            apply existsb_eqb_in in Hx. congruence.
      - split; trivial. apply incl_appl, incl_refl. }
    destruct Hstep as [Hnd' Hincl'].
    destruct (IH d' pl' Hnd') as [Hnd'' Hincl''].
    split; trivial.
    intros x Hx. apply Hincl'' in Hx. apply in_app_or in Hx.
    destruct Hx as [Hx|Hx].
    + apply Hincl' in Hx. apply in_app_or in Hx.
      destruct Hx as [Hx|[<-|[]]]; apply in_or_app; [now left | right; now left].
    + apply in_or_app. right. now right.
Qed.

Lemma settle_placement_never_raises
    (module : Module) (w w' : World S) (e : PyError) :
  settle_placement module w <> (Raised e, w').
Proof.
  unfold settle_placement.
  destruct (clusters (params module)) as [[|c cs]|]; try discriminate.
  rewrite bind_run. unfold list_entities, call.
  destruct (api_list_entities _ _ (remote w)) as [es r'].
  match goal with
  | |- context [resolve_clusters (c :: cs) es ?acc] =>
      assert (Hsound : NoDup (dict_keys (fst (resolve_clusters (c :: cs) es acc)))
                /\ incl (dict_keys (fst (resolve_clusters (c :: cs) es acc))) (c :: cs))
        by (apply (@resolve_clusters_keys_sound es (c :: cs) [] [] (NoDup_nil _)));
      destruct (resolve_clusters (c :: cs) es acc) as [d refs]
  end.
  destruct Hsound as [Hnd Hincl]. cbn [fst] in Hnd, Hincl.
  destruct (negb _); [|discriminate].
  destruct (remove_resolved (dict_keys d) (c :: cs)) eqn:Hremove; [discriminate|].
  exfalso. now apply (remove_resolved_total Hnd Hincl).
Qed.

(** X23. The only exceptions [create_image_spec] itself can die on are the
    [ValueError] of [urlparse], which needs the detection to run on a URL
    that [urlparse] refuses and comes before any call, and the [IndexError]
    of the VM lookup, which needs a VM named by [vm_disk] without a
    [vm_disk_uuid]; in particular the [clusters.remove] of the failure path
    never misses its element. *)
Theorem builder_raises_only_in_detection_or_lookup
    (module : Module) (result : Result) (w w' : World S) (e : PyError) :
  create_image_spec urlparse_path module result w = (Raised e, w') ->
  (e = ValueError /\ w' = w
   /\ truthy (image_type (params module)) = false
   /\ exists url, image_url (params module) = Some url /\ urlparse_path url = None)
  \/ (e = IndexError
      /\ truthy (vm_disk (params module)) = true
      /\ truthy (vm_disk_uuid (params module)) = false).
Proof.
  rewrite create_image_spec_steps. rewrite bind_run.
  destruct (settle_type urlparse_path module w) as [[t | r | m | e0] w1] eqn:Htype;
    try discriminate.
  - rewrite bind_run.
    destruct (settle_disk module w1) as [[d | r | m | e0] w2] eqn:Hdisk;
      try discriminate.
    + rewrite bind_run.
      destruct (settle_placement module w2) as [[pl | r | m | e0] w3] eqn:Hpl;
        try discriminate.
      exfalso. now apply (settle_placement_never_raises _ _ Hpl).
    + intros H. injection H as <- _. right.
      unfold settle_disk in Hdisk.
      destruct (truthy (vm_disk (params module))) eqn:Hvm;
        destruct (truthy (vm_disk_uuid (params module))) eqn:Hid;
        simpl in Hdisk; try discriminate.
      rewrite bind_run in Hdisk. unfold list_entities, call in Hdisk.
      destruct (api_list_entities _ _ (remote w1)) as [vms r'].
      destruct vms as [|vm rest]; [|destruct (ent_disk_list vm)];
        try discriminate; injection Hdisk as <- _; repeat split.
  - intros H. injection H as <- <-. left.
    assert (Hdetect :
              detect_image_type urlparse_path (image_url (params module)) w
                = (Raised e0, w1) ->
              e0 = ValueError /\ w1 = w
              /\ exists url,
                   image_url (params module) = Some url /\ urlparse_path url = None).
    { unfold detect_image_type, url_extension.
      destruct (image_url (params module)) as [url|].
      - destruct (urlparse_path url) as [path|] eqn:Hparse.
        + destruct (snd (splitext path) =? ".iso"); [discriminate|].
          destruct (snd (splitext path) =? ".qcow2"); discriminate.
        + unfold raise. intros H. injection H as <- <-.
          repeat split. now exists url.
      - simpl. discriminate. }
    unfold settle_type in Htype.
    destruct (image_type (params module)) as [t|] eqn:Ht; simpl.
    + destruct (t =? "") eqn:Hempty; [|discriminate].
      destruct (Hdetect Htype) as [-> [-> Hurl]]. repeat split; trivial.
    + destruct (Hdetect Htype) as [-> [-> Hurl]]. repeat split; trivial.
Qed.

(** *** Two more passes *)

(** X24. With distinct requested cluster names of which some are not
    listed, the builder leaves through [fail_json] naming exactly those, in
    the order of the request, after the cluster listing; [_create] fails
    the same way, before it reads the images and without any mutating call. *)
Theorem distinct_unresolved_clusters_are_named
    (module : Module) (result : Result) (w : World S) (t : string)
    (cl : list string) (es : list Entity) (r' : S) :
  image_type (params module) = Some t -> t <> "" ->
  truthy (vm_disk (params module)) = false ->
  clusters (params module) = Some cl -> NoDup cl ->
  api_list_entities "clusters" (set_list_payload (data (params module))) (remote w)
    = (es, r') ->
  unresolved es cl <> [] ->
  let message :=
    ("Could not find cluster(s) with name " ++ py_str_list (unresolved es cl))%string in
  let w' := {| remote := r'; trace := trace w ++ [clusters_listing module] |} in
  create_image_spec urlparse_path module result w = (FailJson message, w')
  /\ _create urlparse_path module result w = (FailJson message, w')
  /\ (forall c, In c (unresolved es cl) <-> In c cl /\ resolved es c = false).
Proof.
  intros Ht Hne Hvm Hcl Hnd Hlist Hsome message w'.
  pose proof (unresolved_clusters_reported urlparse_path module result w
                Ht Hne Hvm Hcl Hnd Hlist Hsome) as Hfail.
  split; [exact Hfail | split].
  - unfold _create. rewrite bind_run, Hfail. reflexivity.
  - intros c. unfold unresolved. rewrite filter_In.
    split; intros [Hin Hres]; split; trivial.
    + now apply negb_true_iff.
    + now apply negb_true_iff.
Qed.

(** X25. A [present] pass whose type and description are given and found on
    the first listed image of the requested name changes nothing: after the
    calls of the builder and the one listing of the images it exits with
    [changed] false and the match result, and it makes no mutating call. *)
Theorem pass_on_matching_image_is_noop
    (module : Module) (w w1 : World S) (image_spec : CreatePayload)
    (es rest : list Entity) (e : Entity) (r2 : S) :
  check_mode module = false ->
  state (params module) = "present" ->
  create_image_spec urlparse_path module result_init
    {| remote := remote w; trace := trace w ++ [EvNewClient] |}
    = (Returned image_spec, w1) ->
  api_list_entities "images" (set_list_payload (data (params module))) (remote w1)
    = (es, r2) ->
  named (image_name (params module)) es = e :: rest ->
  image_type (params module) = Some (ent_image_type e) ->
  image_description (params module) = ent_description e ->
  exists image_state,
    main urlparse_path module w =
      (ExitJson (set_image_state image_state result_init),
       {| remote := r2; trace := trace w1 ++ [images_listing module] |})
    /\ changed (set_image_state image_state result_init) = false
    /\ match_state image_state = true
    /\ filter is_mutating (trace w1 ++ [images_listing module])
       = filter is_mutating (trace w).
Proof.
  intros Hcheck Hstate Hspec Hlist Hnamed Ht Hd.
  destruct (full_match_rerun_is_noop urlparse_path module result_init _
              Hspec Hlist Hnamed Ht Hd) as [st [Hrun _]].
  assert (Hfull : match_state st = true).
  { pose proof Hrun as Hrun'.
    assert (Hstate' : get_existing_image_state module w1 =
              (Returned (match_entities (image_name (params module))
                           (image_type (params module))
                           (image_description (params module)) es no_state None),
               {| remote := r2; trace := trace w1 ++ [images_listing module] |})).
    { unfold get_existing_image_state, bind, list_entities, call, ret.
      rewrite Hlist. reflexivity. }
    rewrite (surjective_pairing (match_entities _ _ _ es _ _)) in Hstate'.
    rewrite (@create_after_state _ _ _ _ _ _ _ _ _ _ _ Hspec Hstate') in Hrun'.
    simpl in Hrun'.
    destruct (match_state (fst (match_entities _ _ _ es no_state None))) eqn:Hms.
    - simpl in Hrun'. unfold exit_json in Hrun'. injection Hrun' as Hres.
      assert (Hst : res_image_state
                      (set_image_state
                         (fst (match_entities (image_name (params module))
                                 (image_type (params module))
                                 (image_description (params module)) es no_state None))
                         result_init)
                    = res_image_state (set_image_state st result_init))
        by (now rewrite Hres).
      simpl in Hst. injection Hst as <-. exact Hms.
    - exfalso. rewrite match_entities_flags in Hms. rewrite Hnamed in Hms.
      simpl in Hms. unfold further_match in Hms.
      assert (Hta : type_agrees (image_type (params module)) e = true).
      { unfold type_agrees. rewrite Ht. simpl. apply String.eqb_refl. }
      assert (Hda : description_agrees (image_description (params module)) e = true).
      { unfold description_agrees. rewrite Hd.
        destruct (ent_description e); simpl; trivial. apply String.eqb_refl. }
      unfold type_agrees in Hta. unfold description_agrees in Hda.
      rewrite Hta in Hms. simpl in Hms.
      unfold type_agrees, description_agrees in Hms.
      rewrite Hta, Hda in Hms. discriminate. }
  exists st. split; [|split; [reflexivity | split; [exact Hfull|]]].
  - rewrite main_runs_create; trivial.
    rewrite bind_run, Hrun. reflexivity.
  - destruct (create_image_spec_only_lists module result_init
                {| remote := remote w; trace := trace w ++ [EvNewClient] |})
      as [evs [Htrace Hquiet]].
    rewrite Hspec in Htrace. simpl in Htrace. rewrite Htrace.
    rewrite !filter_app. simpl.
    destruct (filter is_mutating evs);
      [rewrite !app_nil_r; reflexivity | simpl in Hquiet; lia].
Qed.

End Coverage.

(** ** The further properties on the scenarios *)

Lemma pass_mutation_follows_state_witness :
  issues_at_most is_delete 0 (main simple_url_path (run ubuntu20))
  /\ issues_at_most (fun e => is_create e || is_update e) 0
       (main simple_url_path (run ubuntu20_absent)).
Proof.
  split.
  - refine (proj1 (pass_mutation_follows_state simple_url_path (run ubuntu20)) _).
    discriminate.
  - refine (proj2 (pass_mutation_follows_state simple_url_path (run ubuntu20_absent)) _).
    discriminate.
Defined.

Lemma delete_absent_image_witness :
  named "ubuntu20" (sim_images empty_remote) = []
  /\ main simple_url_path (run ubuntu20_absent) (start empty_remote) =
       (ExitJson result_init,
        {| remote := empty_remote; trace := [EvNewClient; list_images] |}).
Proof.
  split; [reflexivity|].
  refine (proj2 (delete_absent_image_is_noop simple_url_path (run ubuntu20_absent)
                   result_init (start empty_remote) (es := []) (r' := empty_remote)
                   _ eq_refl eq_refl) eq_refl eq_refl).
  discriminate.
Defined.

Lemma delete_single_image_witness :
  main simple_url_path (run ubuntu20_absent) (start one_ubuntu20) =
    (ExitJson (set_changed true (set_image_count 1 result_init)),
     {| remote := remote_with_next 1 [];
        trace := [EvNewClient; list_images; EvDelete "u1"; EvPoll "task-0"] |}).
Proof.
  refine (proj2 (proj2 (proj2
            (delete_single_image_succeeds simple_url_path (run ubuntu20_absent)
               result_init (start one_ubuntu20)
               (es := sim_images one_ubuntu20)
               (e := image "u1" "ubuntu20" "ISO_IMAGE" None)
               (task := "task-0") (status := None)
               (r1 := one_ubuntu20) (r2 := remote_with_next 1 [])
               (r3 := remote_with_next 1 [])
               _ eq_refl eq_refl eq_refl _ eq_refl eq_refl))) eq_refl eq_refl);
    discriminate.
Defined.

Lemma delete_without_task_witness :
  _delete (client := taskless_client) (run ubuntu20_absent) result_init
    (start one_ubuntu20) =
    (Returned (set_changed true (set_image_count 1 result_init)),
     {| remote := remote_with_next 1 [];
        trace := [list_images; EvDelete "u1"] |}).
Proof.
  refine (delete_without_task_is_not_polled (client := taskless_client)
            (run ubuntu20_absent) result_init (start one_ubuntu20)
            (es := sim_images one_ubuntu20)
            (e := image "u1" "ubuntu20" "ISO_IMAGE" None)
            (task := None) (r1 := one_ubuntu20) (r2 := remote_with_next 1 [])
            _ eq_refl eq_refl eq_refl eq_refl).
  discriminate.
Defined.

Lemma delete_without_name_witness :
  main simple_url_path (run nameless_absent) (start two_ubuntu20) =
    (ExitJson (set_failed true result_init),
     {| remote := two_ubuntu20; trace := [EvNewClient] |}).
Proof.
  exact (proj2 (proj2 (delete_without_name_fails simple_url_path (run nameless_absent)
                         result_init (start two_ubuntu20) eq_refl))
           eq_refl eq_refl).
Defined.

Lemma unknown_state_witness :
  main simple_url_path (run ubuntu20_latest) (start empty_remote) =
    (Raised UnboundLocalError, {| remote := empty_remote; trace := [EvNewClient] |}).
Proof.
  refine (unknown_state_raises simple_url_path (run ubuntu20_latest)
            (start empty_remote) eq_refl _ _); discriminate.
Defined.

Lemma create_reports_new_image_witness :
  _create simple_url_path (run ubuntu20_typed) result_init (start empty_remote) =
    (Returned (set_changed true (set_image_uuid "image-0" result_init)),
     {| remote := after_first_pass;
        trace := [list_images; EvCreate ubuntu20_request; EvPoll "task-0"] |}).
Proof.
  exact (create_reports_new_image simple_url_path (run ubuntu20_typed) result_init
           (start empty_remote) (w1 := start empty_remote)
           (image_spec := ubuntu20_request) (es := []) (task := "task-0")
           (new_uuid := "image-0") (status := None) (r2 := empty_remote)
           (r3 := after_first_pass) (r4 := after_first_pass)
           eq_refl eq_refl eq_refl eq_refl eq_refl eq_refl).
Defined.

Lemma create_task_failure_witness :
  fst (_create simple_url_path (run ubuntu20_typed) result_init (start failing_remote)) =
    Returned (set_msg (MsgStr "no space left") (set_failed true result_init))
  /\ changed (set_msg (MsgStr "no space left") (set_failed true result_init)) = false.
Proof.
  pose (fails := create_task_failure_is_reported simple_url_path (run ubuntu20_typed)
                   result_init (start failing_remote) (w1 := start failing_remote)
                   (image_spec := ubuntu20_request) (es := []) (task := "task-0")
                   (new_uuid := "image-0") (reason := "no space left")
                   (status := Some "no space left") (r2 := failing_remote)
                   (r3 := snd (sim_create ubuntu20_request failing_remote))
                   (r4 := snd (sim_create ubuntu20_request failing_remote))
                   eq_refl eq_refl eq_refl eq_refl eq_refl eq_refl).
  split.
  - exact (f_equal fst (proj1 fails)).
  - exact (proj1 (proj2 fails)).
Defined.

Lemma update_rewrites_witness :
  trace (snd (_update (run ubuntu20_typed) result_init (Some "u1") (start other_ubuntu20))) =
    [EvGet (Some "u1");
     EvUpdate (Some "u1")
       {| is_has_status := false; is_spec_name := "ubuntu20";
          is_image_type := Some "ISO_IMAGE"; is_description := Some "";
          is_metadata_uuid := "u1" |};
     EvPoll "task-0"].
Proof.
  exact (proj1 (update_rewrites_type_and_description (run ubuntu20_typed) result_init
                  (Some "u1") (start other_ubuntu20)
                  (current := fst (sim_get (Some "u1") other_ubuntu20))
                  (r1 := other_ubuntu20) eq_refl eq_refl)).
Defined.

Lemma update_reports_task_outcome_witness :
  fst (_update (run ubuntu20_described) result_init (Some "u1") (start other_ubuntu20)) =
    Returned (set_changed true result_init)
  /\ fst (_update (run ubuntu20_described) result_init (Some "u1")
            (start (remote_with [image "u1" "ubuntu20" "DISK_IMAGE" (Some "old")] []
                      [("task-0", "image is locked")]))) =
       Returned (set_msg (MsgStr "image is locked") (set_failed true result_init)).
Proof.
  split.
  - exact (proj1 (update_reports_task_outcome (run ubuntu20_described) result_init
                    (Some "u1") (start other_ubuntu20)
                    (current := fst (sim_get (Some "u1") other_ubuntu20))
                    (task := "task-0") (status := None) (r1 := other_ubuntu20)
                    (r2 := snd (sim_update (Some "u1")
                                  (update_request (run ubuntu20_described)
                                     (fst (sim_get (Some "u1") other_ubuntu20)))
                                  other_ubuntu20))
                    (r3 := snd (sim_update (Some "u1")
                                  (update_request (run ubuntu20_described)
                                     (fst (sim_get (Some "u1") other_ubuntu20)))
                                  other_ubuntu20))
                    eq_refl eq_refl eq_refl eq_refl) eq_refl).
  - pose (locked := remote_with [image "u1" "ubuntu20" "DISK_IMAGE" (Some "old")] []
                      [("task-0", "image is locked")]).
    exact (proj1 (proj2 (update_reports_task_outcome (run ubuntu20_described)
                           result_init (Some "u1") (start locked)
                           (current := fst (sim_get (Some "u1") locked))
                           (task := "task-0") (status := Some "image is locked")
                           (r1 := locked)
                           (r2 := snd (sim_update (Some "u1")
                                         (update_request (run ubuntu20_described)
                                            (fst (sim_get (Some "u1") locked)))
                                         locked))
                           (r3 := snd (sim_update (Some "u1")
                                         (update_request (run ubuntu20_described)
                                            (fst (sim_get (Some "u1") locked)))
                                         locked))
                           eq_refl eq_refl eq_refl eq_refl)
                    "image is locked" eq_refl)).
Defined.

Lemma update_without_status_witness :
  _update (run ubuntu20_typed) result_init (Some "gone") (start empty_remote) =
    (Raised KeyError, {| remote := empty_remote; trace := [EvGet (Some "gone")] |}).
Proof.
  exact (update_without_status_raises (run ubuntu20_typed) result_init (Some "gone")
           (start empty_remote)
           (current := fst (sim_get (Some "gone") empty_remote))
           (r1 := empty_remote) eq_refl eq_refl).
Defined.

Lemma existing_state_is_well_formed_witness :
  match_name name_only = true <-> Some "u2" <> None.
Proof.
  exact (proj2 (proj2 (proj2
           (existing_state_is_well_formed (run ubuntu20_described) (start two_ubuntu20)
              (w' := {| remote := two_ubuntu20; trace := [list_images] |})
              (st := name_only) (u := Some "u2") eq_refl)))).
Defined.

Lemma built_request_fields_witness :
  cp_spec_name ubuntu20_request = "ubuntu20"
  /\ cp_metadata_name ubuntu20_request = "ubuntu20"
  /\ cp_description ubuntu20_request = ""
  /\ cp_checksum ubuntu20_request = None.
Proof.
  pose (fields := built_request_fields simple_url_path (run ubuntu20) result_init
                    (start empty_remote) (w' := start empty_remote)
                    (payload := ubuntu20_request) eq_refl).
  split; [exact (proj1 fields)|].
  split; [exact (proj1 (proj2 fields))|].
  split; [exact (proj1 (proj2 (proj2 fields)))|].
  exact (proj1 (proj2 (proj2 (proj2 fields)))).
Defined.

Lemma disk_uuid_precedes_url_witness :
  truthy (image_url ubuntu20_from_disk) = true
  /\ exists payload,
       create_image_spec simple_url_path (run ubuntu20_from_disk) result_init
         (start empty_remote) = (Returned payload, start empty_remote)
       /\ cp_image_type payload = "DISK_IMAGE"
       /\ cp_data_source_reference payload = Some "disk-1"
       /\ cp_source_uri payload = None.
Proof.
  split; [reflexivity|].
  pose (wins := disk_uuid_precedes_url simple_url_path (run ubuntu20_from_disk)
                  result_init (start empty_remote) eq_refl).
  destruct (proj2 wins eq_refl eq_refl) as [payload Hbuilt].
  exists payload. split; [exact Hbuilt|].
  exact (proj1 wins payload (start empty_remote) Hbuilt).
Defined.

Lemma request_without_source_witness :
  exists payload,
    create_image_spec simple_url_path (run empty_url_typed) result_init
      (start empty_remote) = (Returned payload, start empty_remote)
    /\ cp_image_type payload = "IMAGE_TYPE"
    /\ cp_data_source_reference payload = None
    /\ cp_source_uri payload = None.
Proof.
  eexists. split; [reflexivity|].
  exact (request_without_source_keeps_placeholder simple_url_path
           (run empty_url_typed) result_init (start empty_remote)
           (w' := start empty_remote) eq_refl eq_refl eq_refl eq_refl).
Defined.

Lemma vm_lookup_without_disk_witness :
  _create simple_url_path (run golden_typed) result_init (start empty_remote) =
    (Raised IndexError,
     {| remote := empty_remote;
        trace := [EvList "vms" (vm_lookup (run golden_typed))] |}).
Proof.
  exact (proj2 (vm_lookup_without_disk_raises simple_url_path (run golden_typed)
                  result_init (start empty_remote) (vms := []) (r' := empty_remote)
                  eq_refl eq_refl eq_refl eq_refl (or_introl eq_refl))).
Defined.

Lemma vm_disk_resolves_witness :
  create_image_spec simple_url_path (run golden_typed) result_init (start golden_remote) =
    create_image_spec simple_url_path (set_vm_disk_uuid "disk-7" (run golden_typed))
      result_init
      {| remote := golden_remote;
         trace := [EvList "vms" (vm_lookup (run golden_typed))] |}.
Proof.
  refine (vm_disk_resolves_to_first_disk simple_url_path (run golden_typed)
            result_init (start golden_remote)
            (vm := vm "vm-1" "golden-vm" ["disk-7"; "disk-8"]) (rest := [])
            (disk := "disk-7") (disks := ["disk-8"]) (r' := golden_remote)
            eq_refl eq_refl eq_refl eq_refl eq_refl _).
  discriminate.
Defined.

Lemma resolved_clusters_witness :
  create_image_spec simple_url_path (run ubuntu20_placed) result_init
    (start clusters_A_B) =
    (Returned (built_request ubuntu20_placed "ISO_IMAGE" None (Some ["c-b"; "c-a"])),
     {| remote := clusters_A_B; trace := [list_clusters] |}).
Proof.
  refine (resolved_clusters_are_placed simple_url_path (run ubuntu20_placed)
            result_init (start clusters_A_B) (t := "ISO_IMAGE") (cl := ["B"; "A"])
            (es := sim_clusters clusters_A_B) (r' := clusters_A_B)
            eq_refl _ eq_refl eq_refl _ _ eq_refl eq_refl).
  - discriminate.
  - discriminate.
  - repeat constructor; simpl; intuition discriminate.
Defined.

Lemma builder_raises_witness :
  ((IndexError = ValueError
    /\ {| remote := empty_remote;
          trace := [EvList "vms" (vm_lookup (run golden_typed))] |} = start empty_remote
    /\ truthy (image_type golden_typed) = false
    /\ exists url, image_url golden_typed = Some url /\ simple_url_path url = None)
   \/ (IndexError = IndexError
       /\ truthy (vm_disk golden_typed) = true
       /\ truthy (vm_disk_uuid golden_typed) = false))
  /\ ((ValueError = ValueError /\ start empty_remote = start empty_remote
       /\ truthy (image_type bracket_url) = false
       /\ exists url, image_url bracket_url = Some url /\ simple_url_path url = None)
      \/ (ValueError = IndexError
          /\ truthy (vm_disk bracket_url) = true
          /\ truthy (vm_disk_uuid bracket_url) = false)).
Proof.
  split.
  - exact (builder_raises_only_in_detection_or_lookup simple_url_path
             (run golden_typed) result_init (start empty_remote)
             (w' := {| remote := empty_remote;
                       trace := [EvList "vms" (vm_lookup (run golden_typed))] |})
             (e := IndexError) eq_refl).
  - exact (builder_raises_only_in_detection_or_lookup simple_url_path
             (run bracket_url) result_init (start empty_remote)
             (w' := start empty_remote) (e := ValueError) eq_refl).
Defined.

Lemma distinct_unresolved_clusters_witness :
  _create simple_url_path (run ubuntu20_misplaced) result_init (start cluster_A_only) =
    (FailJson "Could not find cluster(s) with name ['C', 'D']",
     {| remote := cluster_A_only; trace := [list_clusters] |})
  /\ _create simple_url_path (run (with_clusters ["it's"; "A"] ubuntu20_typed))
       result_init (start cluster_A_only) =
       (FailJson
          ("Could not find cluster(s) with name ["
           ++ String double_quote ("it's" ++ String double_quote "]")),
        {| remote := cluster_A_only; trace := [list_clusters] |}).
Proof.
  split.
  - refine (proj1 (proj2
              (distinct_unresolved_clusters_are_named simple_url_path
                 (run ubuntu20_misplaced) result_init (start cluster_A_only)
                 (t := "ISO_IMAGE") (cl := ["A"; "C"; "D"])
                 (es := sim_clusters cluster_A_only) (r' := cluster_A_only)
                 eq_refl _ eq_refl eq_refl _ eq_refl _))).
    + discriminate.
    + repeat constructor; simpl; intuition discriminate.
    + discriminate.
  - refine (proj1 (proj2
              (distinct_unresolved_clusters_are_named simple_url_path
                 (run (with_clusters ["it's"; "A"] ubuntu20_typed)) result_init
                 (start cluster_A_only)
                 (t := "ISO_IMAGE") (cl := ["it's"; "A"])
                 (es := sim_clusters cluster_A_only) (r' := cluster_A_only)
                 eq_refl _ eq_refl eq_refl _ eq_refl _))).
    + discriminate.
    + repeat constructor; simpl; intuition discriminate.
    + discriminate.
Defined.

Lemma pass_on_matching_image_witness :
  exists image_state,
    main simple_url_path (run ubuntu20_described) (start same_ubuntu20) =
      (ExitJson (set_image_state image_state result_init),
       {| remote := same_ubuntu20; trace := [EvNewClient; list_images] |})
    /\ changed (set_image_state image_state result_init) = false
    /\ match_state image_state = true
    /\ filter is_mutating [EvNewClient; list_images] = [].
Proof.
  exact (pass_on_matching_image_is_noop simple_url_path (run ubuntu20_described)
           (start same_ubuntu20)
           (w1 := {| remote := same_ubuntu20; trace := [EvNewClient] |})
           (image_spec := cp_with_description "Ubuntu 20.04" ubuntu20_request)
           (es := sim_images same_ubuntu20) (rest := [])
           (e := image "u1" "ubuntu20" "ISO_IMAGE" (Some "Ubuntu 20.04"))
           (r2 := same_ubuntu20)
           eq_refl eq_refl eq_refl eq_refl eq_refl eq_refl eq_refl).
Defined.

(** [repr] on names that need another quote or an escape. *)
Example py_repr_apostrophe :
  py_str_list ["it's"; "A"]
  = String "["%char (String double_quote ("it's" ++ String double_quote ", 'A']")).
Proof. reflexivity. Qed.

Example py_repr_both_quotes :
  py_repr (String "'"%char (String double_quote "s"))
  = String "'"%char (String "\"%char (String "'"%char (String double_quote "s'"))).
Proof. reflexivity. Qed.

Example py_repr_backslash : py_repr "a\b" = "'a\\b'".
Proof. reflexivity. Qed.

Example py_repr_control :
  py_repr (String (ascii_of_nat 9) (String (ascii_of_nat 1) (String (ascii_of_nat 160) "")))
  = "'\t\x01\xa0'".
Proof. reflexivity. Qed.

Example py_repr_latin :
  py_repr (String (ascii_of_nat 233) "")
  = String "'"%char (String (ascii_of_nat 233) "'").
Proof. reflexivity. Qed.

Example missing_cluster_with_apostrophe :
  create_image_spec simple_url_path (run (with_clusters ["it's"; "A"] ubuntu20_typed))
    result_init (start cluster_A_only)
  = (FailJson
       ("Could not find cluster(s) with name ["
        ++ String double_quote ("it's" ++ String double_quote "]")),
     {| remote := cluster_A_only; trace := [list_clusters] |}).
Proof. reflexivity. Qed.

Example urlparse_refuses_open_bracket :
  simple_url_path "http://[::1/ubuntu20.iso" = None
  /\ simple_url_path "http://[::1]/ubuntu20.iso" = Some "/ubuntu20.iso"
  /\ create_image_spec simple_url_path (run bracket_url) result_init (start empty_remote)
     = (Raised ValueError, start empty_remote).
Proof. repeat split; reflexivity. Qed.
